(** * Lattice Python SDK: marshalling pipeline

    A shallow embedding of [lattice_sdk/models.py], [lattice_sdk/exceptions.py]
    and [lattice_sdk/client.py], and the properties of the decode / encode
    operations, the transport and the operation groups.

    Python values that travel on the wire are embedded as the inductive type
    [value]; dictionaries are finite maps with string keys; code that can raise
    returns a [result]; the client operations run in a small monad that threads
    the log of HTTP requests handed to the session. *)

From Stdlib Require Import ZArith String Ascii List.
From Stdlib Require Import Floats.SpecFloat.
From stdpp Require Import base option list strings gmap fin_maps.

Local Open Scope string_scope.
Local Set Warnings "-register-all".

(** ** Python values *)

(** The values [json.loads] can produce (and that [json.dumps] accepts):
    [None], [bool], [int], [float], [str], [list] and [dict] with string keys.
    A float is an IEEE-754 binary64 value, kept in its specification form. *)
Inductive value : Type :=
  | VNone
  | VBool (b : bool)
  | VInt (z : Z)
  | VFloat (f : spec_float)
  | VStr (s : string)
  | VList (l : list value)
  | VDict (d : gmap string value).

Abbreviation dict := (gmap string value).

(** Python truthiness, as used by [if x:], [x or y] and [x and y]. *)
Definition truthy (v : value) : bool :=
  match v with
  | VNone => false
  | VBool b => b
  | VInt z => negb (Z.eqb z 0)
  | VFloat (S754_zero _) => false
  | VFloat _ => true
  | VStr s => match s with EmptyString => false | String _ _ => true end
  | VList l => match l with [] => false | _ :: _ => true end
  | VDict d => negb (Nat.eqb (size d) 0)
  end.

(** [x or y] *)
Definition py_or (x y : value) : value := if truthy x then x else y.

(** [x is None] *)
Definition is_None (v : value) : bool :=
  match v with VNone => true | _ => false end.

(** [d.get(k, dflt)] and [d.get(k)] *)
Definition get (d : dict) (k : string) (dflt : value) : value :=
  default dflt (d !! k).
Definition get1 (d : dict) (k : string) : value := get d k VNone.

(** [result[k] = v] when [c] holds: the conditional assignments of the
    encoders. *)
Definition set_if (c : bool) (k : string) (v : value) (d : dict) : dict :=
  if c then <[k := v]> d else d.

(** Embedding of typed Python data into [value]. *)
Definition of_strs (l : list string) : value := VList (VStr <$> l).
Definition of_str_map (m : gmap string string) : value := VDict (VStr <$> m).

(** ** Exceptions and results *)

(** The exceptions that are not the SDK's: the ones the code of the SDK runs
    into by itself ([AttributeError], [TypeError], [KeyError]) and the ones a
    library call may raise besides those it documents, such as the
    [ValueError] of [json] on an integer of more than 4300 digits or of the
    HTTP layer on a timeout that is not positive, and the [RecursionError] of
    [json] on a deeply nested body; [OtherError] stands for any other class,
    by its name. *)
Inductive pyexn : Type :=
  | AttributeError
  | TypeError
  | KeyError
  | ValueError
  | RecursionError
  | OtherError (name : string).

Inductive exn : Type :=
  | Builtin (e : pyexn)
  | LatticeException (message : string)
  | LatticeConnectionError (message : string)
  | LatticeApiError (message : string) (status : Z)
  | LatticeValidationError (message : string) (field : option string).

Coercion Builtin : pyexn >-> exn.

(** [isinstance(e, LatticeException)]: the three other SDK exceptions are
    subclasses of [LatticeException] (exceptions.py). *)
Definition is_LatticeException (e : exn) : bool :=
  match e with
  | LatticeException _ | LatticeConnectionError _
  | LatticeApiError _ _ | LatticeValidationError _ _ => true
  | Builtin _ => false
  end.

Inductive result (A : Type) : Type :=
  | Ok (a : A)
  | Raise (e : exn).
Arguments Ok {A} a.
Arguments Raise {A} e.

Definition raises {A} (r : result A) : bool :=
  match r with Ok _ => false | Raise _ => true end.

Definition rbind {A B} (r : result A) (k : A → result B) : result B :=
  match r with Ok a => k a | Raise e => Raise e end.

(** [[f(x) for x in l]] where [f] may raise: stops at the first exception. *)
Fixpoint rmap {A B} (f : A → result B) (l : list A) : result (list B) :=
  match l with
  | [] => Ok []
  | x :: l' => rbind (f x) (λ y, rbind (rmap f l') (λ ys, Ok (y :: ys)))
  end.

(** [d[k]] *)
Definition getitem (d : dict) (k : string) : result value :=
  match d !! k with Some v => Ok v | None => Raise KeyError end.

(** The elements a [for] loop (or a comprehension) draws from a wire value:
    the items of a list, the one-character strings of a string, the keys of a
    dictionary; the other values are not iterable. *)
Fixpoint chars (s : string) : list value :=
  match s with
  | EmptyString => []
  | String c s' => VStr (String c EmptyString) :: chars s'
  end.
Definition iterate (v : value) : result (list value) :=
  match v with
  | VList l => Ok l
  | VStr s => Ok (chars s)
  | VDict d => Ok (VStr <$> (map_to_list d).*1)
  | VNone | VBool _ | VInt _ | VFloat _ => Raise TypeError
  end.

(** ** String helpers *)

(** A text is the UTF-8 encoding of a Python [str].  The case mappings of
    ASCII letters, which is all that [str.upper] and [str.lower] do to a text
    made of ASCII characters only; on other texts the two methods follow the
    Unicode tables, which are not reproduced here (see [PyLib] below). *)
Definition upper_char (c : ascii) : ascii :=
  let n := nat_of_ascii c in
  if (Nat.leb 97 n && Nat.leb n 122)%bool then ascii_of_nat (n - 32) else c.
Definition lower_char (c : ascii) : ascii :=
  let n := nat_of_ascii c in
  if (Nat.leb 65 n && Nat.leb n 90)%bool then ascii_of_nat (n + 32) else c.

Fixpoint ascii_upper (s : string) : string :=
  match s with
  | EmptyString => EmptyString
  | String c s' => String (upper_char c) (ascii_upper s')
  end.
Fixpoint ascii_lower (s : string) : string :=
  match s with
  | EmptyString => EmptyString
  | String c s' => String (lower_char c) (ascii_lower s')
  end.
Fixpoint is_ascii (s : string) : bool :=
  match s with
  | EmptyString => true
  | String c s' => Nat.ltb (nat_of_ascii c) 128 && is_ascii s'
  end.

(** [s.rstrip(c)] for an ASCII character [c]: drop every trailing occurrence
    of [c] (no byte of a multi-byte UTF-8 sequence equals an ASCII one). *)
Fixpoint rstrip (c : ascii) (s : string) : string :=
  match s with
  | EmptyString => EmptyString
  | String a s' =>
      match rstrip c s' with
      | EmptyString => if Ascii.eqb a c then EmptyString else String a EmptyString
      | r => String a r
      end
  end.

(** ** The Python library *)

(** A [datetime.datetime] object: calendar fields and, when the text carried
    one, a UTC offset in seconds. *)
Record datetime := {
  year : Z; month : Z; day : Z;
  hour : Z; minute : Z; second : Z; microsecond : Z;
  utcoffset : option Z
}.

(** The text functions of the Python standard library that the SDK calls.
    They are an interface here, with what the SDK relies on:
    - [fromisoformat] is [datetime.fromisoformat]; [None] stands for the
      [ValueError] it raises on a text it does not accept;
    - [upper] and [lower] are [str.upper] and [str.lower], which follow the
      Unicode case mappings (so that [upper] sends the dotless i to [I]); on
      a text of ASCII characters they are the ASCII mappings. *)
Class PyLib := {
  fromisoformat : string → option datetime;
  upper : string → string;
  lower : string → string;
  upper_of_ascii : ∀ s, is_ascii s = true → upper s = ascii_upper s;
  lower_of_ascii : ∀ s, is_ascii s = true → lower s = ascii_lower s
}.

(** ** Enumerations (models.py) *)

Inductive SchemaEnforcementMode := SEM_NONE | SEM_STRICT | SEM_FLEXIBLE | SEM_PARTIAL.
Inductive IndexingMode := IM_ALL | IM_SELECTIVE | IM_NONE.
Inductive SearchCondition :=
  | EQUALS | NOT_EQUALS | GREATER_THAN | GREATER_THAN_OR_EQUAL_TO
  | LESS_THAN | LESS_THAN_OR_EQUAL_TO | IS_NULL | IS_NOT_NULL
  | CONTAINS | STARTS_WITH | ENDS_WITH | LIKE.
Inductive EnumerationOrder :=
  | CREATED_ASCENDING | CREATED_DESCENDING
  | LAST_UPDATE_ASCENDING | LAST_UPDATE_DESCENDING
  | NAME_ASCENDING | NAME_DESCENDING.

#[global] Instance SchemaEnforcementMode_eq_dec : EqDecision SchemaEnforcementMode.
Proof. solve_decision. Defined.
#[global] Instance IndexingMode_eq_dec : EqDecision IndexingMode.
Proof. solve_decision. Defined.
#[global] Instance SearchCondition_eq_dec : EqDecision SearchCondition.
Proof. solve_decision. Defined.

(** The [.value] of each member. *)
Definition SchemaEnforcementMode_value (m : SchemaEnforcementMode) : string :=
  match m with
  | SEM_NONE => "None" | SEM_STRICT => "Strict"
  | SEM_FLEXIBLE => "Flexible" | SEM_PARTIAL => "Partial"
  end.
Definition IndexingMode_value (m : IndexingMode) : string :=
  match m with
  | IM_ALL => "All" | IM_SELECTIVE => "Selective" | IM_NONE => "None"
  end.
Definition SearchCondition_value (c : SearchCondition) : string :=
  match c with
  | EQUALS => "Equals" | NOT_EQUALS => "NotEquals"
  | GREATER_THAN => "GreaterThan"
  | GREATER_THAN_OR_EQUAL_TO => "GreaterThanOrEqualTo"
  | LESS_THAN => "LessThan" | LESS_THAN_OR_EQUAL_TO => "LessThanOrEqualTo"
  | IS_NULL => "IsNull" | IS_NOT_NULL => "IsNotNull"
  | CONTAINS => "Contains" | STARTS_WITH => "StartsWith"
  | ENDS_WITH => "EndsWith" | LIKE => "Like"
  end.
Definition EnumerationOrder_value (o : EnumerationOrder) : string :=
  match o with
  | CREATED_ASCENDING => "CreatedAscending"
  | CREATED_DESCENDING => "CreatedDescending"
  | LAST_UPDATE_ASCENDING => "LastUpdateAscending"
  | LAST_UPDATE_DESCENDING => "LastUpdateDescending"
  | NAME_ASCENDING => "NameAscending"
  | NAME_DESCENDING => "NameDescending"
  end.

(** [_parse_schema_enforcement_mode].  The [isinstance(value,
    SchemaEnforcementMode)] branch cannot be taken by a wire value. *)
Definition _parse_schema_enforcement_mode `{PyLib} (v : value)
  : SchemaEnforcementMode :=
  match v with
  | VNone => SEM_NONE
  | VStr s =>
      let value_lower := lower s in
      if String.eqb value_lower "none" then SEM_NONE
      else if String.eqb value_lower "strict" then SEM_STRICT
      else if String.eqb value_lower "flexible" then SEM_FLEXIBLE
      else if String.eqb value_lower "partial" then SEM_PARTIAL
      else SEM_NONE
  | _ => SEM_NONE
  end.

(** [_parse_indexing_mode] *)
Definition _parse_indexing_mode `{PyLib} (v : value) : IndexingMode :=
  match v with
  | VNone => IM_ALL
  | VStr s =>
      let value_lower := lower s in
      if String.eqb value_lower "all" then IM_ALL
      else if String.eqb value_lower "selective" then IM_SELECTIVE
      else if String.eqb value_lower "none" then IM_NONE
      else IM_ALL
  | _ => IM_ALL
  end.

(** ** Timestamps *)

(** [_parse_datetime].  Both arms of [if "." in value] make the same call, and
    the [isinstance(value, datetime)] branch cannot be taken by a wire value.
    The [ValueError] is caught and turned into [None]. *)
Definition _parse_datetime `{PyLib} (v : value) : option datetime :=
  match v with
  | VNone => None
  | VStr s => fromisoformat (rstrip "Z" s)
  | _ => None
  end.

(** ** Entities (models.py)

    A dataclass does not check its field annotations: a field filled by
    [data.get(...)] holds whatever the wire object holds, so such fields have
    type [value].  For every entity, [decode] is the body of [from_dict] on a
    dictionary and [from_dict] adds the dispatch on the argument: [None] gives
    [None], and any other non-dictionary has no [get] attribute. *)

Definition from_dict_with {A} (decode : dict → result A) (data : value)
  : result (option A) :=
  match data with
  | VNone => Ok None
  | VDict d => rbind (decode d) (λ a, Ok (Some a))
  | _ => Raise AttributeError
  end.

Module Collection.
Record t := {
  id : value;
  name : value;
  description : value;
  documents_directory : value;
  labels : value;
  tags : value;
  created_utc : option datetime;
  last_update_utc : option datetime;
  schema_enforcement_mode : SchemaEnforcementMode;
  indexing_mode : IndexingMode
}.

Definition decode `{PyLib} (data : dict) : t := {|
  id := get data "id" (VStr "");
  name := get data "name" (VStr "");
  description := get1 data "description";
  documents_directory := get1 data "documentsDirectory";
  labels := py_or (get data "labels" (VList [])) (VList []);
  tags := py_or (get data "tags" (VDict ∅)) (VDict ∅);
  created_utc := _parse_datetime (get1 data "createdUtc");
  last_update_utc := _parse_datetime (get1 data "lastUpdateUtc");
  schema_enforcement_mode :=
    _parse_schema_enforcement_mode (get data "schemaEnforcementMode" (VStr "None"));
  indexing_mode := _parse_indexing_mode (get data "indexingMode" (VStr "All"))
|}.

Definition from_dict `{PyLib} : value → result (option t) :=
  from_dict_with (λ d, Ok (decode d)).
End Collection.

Module Document.
Record t := {
  id : value;
  collection_id : value;
  schema_id : value;
  name : value;
  labels : value;
  tags : value;
  created_utc : option datetime;
  last_update_utc : option datetime;
  content : value;
  content_length : value;
  sha256_hash : value
}.

Definition decode `{PyLib} (data : dict) : t := {|
  id := get data "id" (VStr "");
  collection_id := get data "collectionId" (VStr "");
  schema_id := get data "schemaId" (VStr "");
  name := get1 data "name";
  labels := py_or (get data "labels" (VList [])) (VList []);
  tags := py_or (get data "tags" (VDict ∅)) (VDict ∅);
  created_utc := _parse_datetime (get1 data "createdUtc");
  last_update_utc := _parse_datetime (get1 data "lastUpdateUtc");
  content := get1 data "content";
  content_length := get data "contentLength" (VInt 0);
  sha256_hash := get1 data "sha256Hash"
|}.

Definition from_dict `{PyLib} : value → result (option t) :=
  from_dict_with (λ d, Ok (decode d)).

(** [document.content = v] *)
Definition set_content (self : t) (v : value) : t := {|
  id := id self; collection_id := collection_id self; schema_id := schema_id self;
  name := name self; labels := labels self; tags := tags self;
  created_utc := created_utc self; last_update_utc := last_update_utc self;
  content := v;
  content_length := content_length self; sha256_hash := sha256_hash self
|}.
End Document.

Module Schema.
Record t := {
  id : value;
  name : value;
  hash : value;
  created_utc : option datetime;
  last_update_utc : option datetime
}.

Definition decode `{PyLib} (data : dict) : t := {|
  id := get data "id" (VStr "");
  name := get1 data "name";
  hash := get1 data "hash";
  created_utc := _parse_datetime (get1 data "createdUtc");
  last_update_utc := _parse_datetime (get1 data "lastUpdateUtc")
|}.

Definition from_dict `{PyLib} : value → result (option t) :=
  from_dict_with (λ d, Ok (decode d)).
End Schema.

Module SchemaElement.
Record t := {
  id : value;
  schema_id : value;
  position : value;
  key : value;
  data_type : value;
  nullable : value;
  created_utc : option datetime;
  last_update_utc : option datetime
}.

Definition decode `{PyLib} (data : dict) : t := {|
  id := get data "id" (VStr "");
  schema_id := get data "schemaId" (VStr "");
  position := get data "position" (VInt 0);
  key := get data "key" (VStr "");
  data_type := get data "dataType" (VStr "");
  nullable := get data "nullable" (VBool false);
  created_utc := _parse_datetime (get1 data "createdUtc");
  last_update_utc := _parse_datetime (get1 data "lastUpdateUtc")
|}.

Definition from_dict `{PyLib} : value → result (option t) :=
  from_dict_with (λ d, Ok (decode d)).
End SchemaElement.

Module FieldConstraint.
Record t := {
  id : value;
  collection_id : value;
  field_path : value;
  data_type : value;
  required : value;
  nullable : value;
  regex_pattern : value;
  min_value : value;
  max_value : value;
  min_length : value;
  max_length : value;
  allowed_values : value;
  array_element_type : value;
  created_utc : option datetime;
  last_update_utc : option datetime
}.

Definition decode `{PyLib} (data : dict) : t := {|
  id := get data "id" (VStr "");
  collection_id := get data "collectionId" (VStr "");
  field_path := get data "fieldPath" (VStr "");
  data_type := get1 data "dataType";
  required := get data "required" (VBool false);
  nullable := get data "nullable" (VBool true);
  regex_pattern := get1 data "regexPattern";
  min_value := get1 data "minValue";
  max_value := get1 data "maxValue";
  min_length := get1 data "minLength";
  max_length := get1 data "maxLength";
  allowed_values := get1 data "allowedValues";
  array_element_type := get1 data "arrayElementType";
  created_utc := _parse_datetime (get1 data "createdUtc");
  last_update_utc := _parse_datetime (get1 data "lastUpdateUtc")
|}.

Definition from_dict `{PyLib} : value → result (option t) :=
  from_dict_with (λ d, Ok (decode d)).

Definition to_dict (self : t) : dict :=
  let result : dict := {[ "fieldPath" := field_path self ]} in
  let result := set_if (truthy (data_type self)) "dataType" (data_type self) result in
  let result := set_if (truthy (required self)) "required" (required self) result in
  let result := set_if (negb (truthy (nullable self))) "nullable" (nullable self) result in
  let result :=
    set_if (truthy (regex_pattern self)) "regexPattern" (regex_pattern self) result in
  let result := set_if (negb (is_None (min_value self))) "minValue" (min_value self) result in
  let result := set_if (negb (is_None (max_value self))) "maxValue" (max_value self) result in
  let result := set_if (negb (is_None (min_length self))) "minLength" (min_length self) result in
  let result := set_if (negb (is_None (max_length self))) "maxLength" (max_length self) result in
  let result :=
    set_if (truthy (allowed_values self)) "allowedValues" (allowed_values self) result in
  let result :=
    set_if (truthy (array_element_type self)) "arrayElementType"
      (array_element_type self) result in
  result.

(** The dataclass defaults: [FieldConstraint()]. *)
Definition defaults : t := {|
  id := VStr ""; collection_id := VStr ""; field_path := VStr "";
  data_type := VNone; required := VBool false; nullable := VBool true;
  regex_pattern := VNone; min_value := VNone; max_value := VNone;
  min_length := VNone; max_length := VNone; allowed_values := VNone;
  array_element_type := VNone; created_utc := None; last_update_utc := None
|}.

(** The field annotations of the dataclass, which Python does not enforce:
    [str], [Optional[str]], [bool], [Optional[float]] (an [int] is accepted
    where a [float] is expected), [Optional[int]], [Optional[List[str]]]. *)
Definition is_str (v : value) : bool :=
  match v with VStr _ => true | _ => false end.
Definition is_bool (v : value) : bool :=
  match v with VBool _ => true | _ => false end.
Definition is_opt_str (v : value) : bool :=
  match v with VNone | VStr _ => true | _ => false end.
Definition is_opt_number (v : value) : bool :=
  match v with VNone | VInt _ | VFloat _ => true | _ => false end.
Definition is_opt_int (v : value) : bool :=
  match v with VNone | VInt _ => true | _ => false end.
Definition is_opt_str_list (v : value) : bool :=
  match v with
  | VNone => true
  | VList l => forallb is_str l
  | _ => false
  end.

Definition well_typed (self : t) : bool :=
  is_str (id self) && is_str (collection_id self) && is_str (field_path self)
  && is_opt_str (data_type self) && is_bool (required self)
  && is_bool (nullable self) && is_opt_str (regex_pattern self)
  && is_opt_number (min_value self) && is_opt_number (max_value self)
  && is_opt_int (min_length self) && is_opt_int (max_length self)
  && is_opt_str_list (allowed_values self)
  && is_opt_str (array_element_type self).
End FieldConstraint.

Module IndexedField.
Record t := {
  id : value;
  collection_id : value;
  field_path : value;
  created_utc : option datetime;
  last_update_utc : option datetime
}.

Definition decode `{PyLib} (data : dict) : t := {|
  id := get data "id" (VStr "");
  collection_id := get data "collectionId" (VStr "");
  field_path := get data "fieldPath" (VStr "");
  created_utc := _parse_datetime (get1 data "createdUtc");
  last_update_utc := _parse_datetime (get1 data "lastUpdateUtc")
|}.

Definition from_dict `{PyLib} : value → result (option t) :=
  from_dict_with (λ d, Ok (decode d)).
End IndexedField.

(** [SearchFilter] and [SearchQuery] are only ever built by the caller and
    have no decoder: their fields carry the annotated types. *)
Module SearchFilter.
Record t := {
  field : string;
  condition : SearchCondition;
  value_ : option string
}.

Definition to_dict (self : t) : dict :=
  let result : dict :=
    <["condition" := VStr (SearchCondition_value (condition self))]>
      {[ "field" := VStr (field self) ]} in
  match value_ self with
  | Some v => <["value" := VStr v]> result
  | None => result
  end.
End SearchFilter.

Module SearchQuery.
Record t := {
  collection_id : string;
  filters : option (list SearchFilter.t);
  labels : option (list string);
  tags : option (gmap string string);
  max_results : option Z;
  skip : option Z;
  ordering : option EnumerationOrder;
  include_content : bool
}.

(** Truthiness of an optional list / dictionary: neither [None] nor empty. *)
Definition nonempty_list {A} (o : option (list A)) : bool :=
  match o with Some (_ :: _) => true | _ => false end.
Definition nonempty_map (o : option (gmap string string)) : bool :=
  match o with Some m => negb (Nat.eqb (size m) 0) | None => false end.

Definition to_dict (self : t) : dict :=
  let result : dict := ∅ in
  let result :=
    set_if (nonempty_list (filters self)) "filters"
      (VList ((λ f, VDict (SearchFilter.to_dict f)) <$> default [] (filters self)))
      result in
  let result :=
    set_if (nonempty_list (labels self)) "labels"
      (of_strs (default [] (labels self))) result in
  let result :=
    set_if (nonempty_map (tags self)) "tags"
      (of_str_map (default ∅ (tags self))) result in
  let result :=
    match max_results self with
    | Some n => <["maxResults" := VInt n]> result
    | None => result
    end in
  let result :=
    match skip self with
    | Some n => <["skip" := VInt n]> result
    | None => result
    end in
  (* every member of [EnumerationOrder] is a non-empty string, hence truthy *)
  let result :=
    match ordering self with
    | Some o => <["ordering" := VStr (EnumerationOrder_value o)]> result
    | None => result
    end in
  let result := set_if (include_content self) "includeContent" (VBool true) result in
  result.
End SearchQuery.

Module SearchResult.
Record t := {
  success : value;
  timestamp : option datetime;
  max_results : value;
  continuation_token : value;
  end_of_results : value;
  total_records : value;
  records_remaining : value;
  documents : list (option Document.t)
}.

(** [docs]: the comprehension over [data["documents"]], which raises when the
    value is not iterable or when an element is neither [None] nor a
    dictionary. *)
Definition decode_documents `{PyLib} (data : dict)
  : result (list (option Document.t)) :=
  if truthy (get1 data "documents") then
    rbind (getitem data "documents") (λ v,
    rbind (iterate v) (λ ds, rmap Document.from_dict ds))
  else Ok [].

(** [timestamp]: a dictionary is looked up at ["utc"], anything else goes to
    [_parse_datetime] as it is. *)
Definition decode_timestamp `{PyLib} (data : dict) : result (option datetime) :=
  if truthy (get1 data "timestamp") then
    rbind (getitem data "timestamp") (λ ts,
      match ts with
      | VDict d => Ok (_parse_datetime (get1 d "utc"))
      | _ => Ok (_parse_datetime ts)
      end)
  else Ok None.

Definition decode `{PyLib} (data : dict) : result t :=
  rbind (decode_documents data) (λ docs,
  rbind (decode_timestamp data) (λ timestamp_,
  Ok {|
    success := get data "success" (VBool false);
    timestamp := timestamp_;
    max_results := get1 data "maxResults";
    continuation_token := get1 data "continuationToken";
    end_of_results := get data "endOfResults" (VBool false);
    total_records := get data "totalRecords" (VInt 0);
    records_remaining := get data "recordsRemaining" (VInt 0);
    documents := docs
  |})).

Definition from_dict `{PyLib} : value → result (option t) :=
  from_dict_with decode.
End SearchResult.

Module IndexRebuildResult.
Record t := {
  collection_id : value;
  documents_processed : value;
  indexes_created : value;
  indexes_dropped : value;
  values_inserted : value;
  duration : value;
  duration_ms : value;
  errors : value;
  success : value
}.

Definition decode (data : dict) : t := {|
  collection_id := get data "collectionId" (VStr "");
  documents_processed := get data "documentsProcessed" (VInt 0);
  indexes_created := py_or (get data "indexesCreated" (VList [])) (VList []);
  indexes_dropped := py_or (get data "indexesDropped" (VList [])) (VList []);
  values_inserted := get data "valuesInserted" (VInt 0);
  duration := get1 data "duration";
  duration_ms := get data "durationMs" (VInt 0);
  errors := py_or (get data "errors" (VList [])) (VList []);
  success := get data "success" (VBool false)
|}.

Definition from_dict : value → result (option t) :=
  from_dict_with (λ d, Ok (decode d)).
End IndexRebuildResult.

Module ResponseContext.
Record t := {
  success : value;
  status_code : value;
  error_message : value;
  data : value;
  headers : value;
  processing_time_ms : value;
  guid : value;
  timestamp_utc : option datetime
}.

Definition decode `{PyLib} (data_ : dict) : t := {|
  success := get data_ "success" (VBool false);
  status_code := get data_ "statusCode" (VInt 0);
  error_message := get1 data_ "errorMessage";
  data := get1 data_ "data";
  headers := py_or (get data_ "headers" (VDict ∅)) (VDict ∅);
  processing_time_ms := get data_ "processingTimeMs" (VInt 0);
  guid := get1 data_ "guid";
  timestamp_utc := _parse_datetime (get1 data_ "timestampUtc")
|}.

Definition from_dict `{PyLib} : value → result (option t) :=
  from_dict_with (λ d, Ok (decode d)).

(** [ResponseContext(success=..., status_code=..., data=..., headers=...)]:
    the constructor call of the transport; the other fields keep the
    dataclass defaults. *)
Definition make (success_ : bool) (status : Z) (data_ : value)
    (headers_ : gmap string string) : t := {|
  success := VBool success_;
  status_code := VInt status;
  error_message := VNone;
  data := data_;
  headers := of_str_map headers_;
  processing_time_ms := VInt 0;
  guid := VNone;
  timestamp_utc := None
|}.
End ResponseContext.

Module IndexTableMapping.
Record t := {
  key : value;
  table_name : value
}.

Definition decode (data : dict) : t := {|
  key := get data "key" (VStr "");
  table_name := get data "tableName" (VStr "")
|}.

Definition from_dict : value → result (option t) :=
  from_dict_with (λ d, Ok (decode d)).
End IndexTableMapping.

(** ** Transport (client.py)

    The HTTP layer is the [requests] library.  What the SDK sees of it is the
    request it hands to [Session.request] and the outcome of that call: a
    response, or one of the exceptions the transport handles. *)

Record Request := {
  req_method : string;
  req_url : string;
  req_json : option dict;
  req_params : option dict;
  req_timeout : Z
}.

(** The outcome of [response.json()]: the decoded body; the
    [json.JSONDecodeError] raised on a body the decoder rejects ([NotJson]);
    an exception of [requests] that is not a [json.JSONDecodeError], which is
    what the [JSONDecodeError] of [requests] is where [requests] decodes with
    [simplejson] ([JsonRequestException], with its [str(e)]; it is a
    [RequestException] that is neither a [ConnectionError] nor a [Timeout]);
    or an exception outside both, which the decoder raises on some bodies (a
    [RecursionError] on deep nesting, a [ValueError] on an integer of more
    than 4300 digits). *)
Inductive json_outcome :=
  | Decoded (v : value)
  | NotJson
  | JsonRequestException (message : string)
  | JsonRaised (e : pyexn).

Record Response := {
  resp_status_code : Z;
  resp_content : string;
  resp_text : string;
  resp_json : json_outcome;
  resp_headers : gmap string string
}.

(** The outcome of [Session.request]: a response, or an exception.
    [ConnectionError_] covers [requests.ConnectionError] and its subclasses,
    [Timeout_] the remaining [requests.Timeout], [RequestException_] any
    other [requests.RequestException], with its [str(e)]; [Raised_] is an
    exception outside the hierarchy of [requests], such as the [ValueError]
    raised for a timeout that is not positive. *)
Inductive outcome :=
  | Responded (response : Response)
  | ConnectionError_
  | Timeout_
  | RequestException_ (message : string)
  | Raised_ (e : pyexn).

(** The session (network and server): the outcome of a request may depend on
    the requests sent before it. *)
Definition session := list Request → Request → outcome.

(** Client computations: they read the session, append to the log of the
    requests sent, and return or raise. *)
Definition io (A : Type) : Type := session → list Request → result A * list Request.

Definition ret {A} (a : A) : io A := λ _ log, (Ok a, log).
Definition raise {A} (e : exn) : io A := λ _ log, (Raise e, log).
Definition lift {A} (r : result A) : io A := λ _ log, (r, log).
Definition bind {A B} (m : io A) (k : A → io B) : io B :=
  λ net log,
    match m net log with
    | (Ok a, log') => k a net log'
    | (Raise e, log') => (Raise e, log')
    end.
(** [try: m except LatticeException: return a] *)
Definition except_LatticeException {A} (m : io A) (a : A) : io A :=
  λ net log,
    match m net log with
    | (Raise e, log') =>
        if is_LatticeException e then (Ok a, log') else (Raise e, log')
    | r => r
    end.
(** [self._session.request(...)] *)
Definition send (r : Request) : io outcome :=
  λ net log, (Ok (net log r), (log ++ [r])%list).
(** Run a computation from an empty log. *)
Definition run {A} (m : io A) (net : session) : result A * list Request := m net [].

Notation "'let!' x ':=' m 'in' k" := (bind m (λ x, k))
  (at level 10, x name, m at level 100, k at level 200,
   format "'[v' 'let!'  x  ':='  m  'in' '/' k ']'").

Record LatticeClient := {
  base_url : string;
  timeout : Z
}.

(** [LatticeClient.__init__] *)
Definition new_client (base_url_ : string) (timeout_ : Z) : LatticeClient :=
  {| base_url := rstrip "/" base_url_; timeout := timeout_ |}.

Definition nonempty (s : string) : bool :=
  match s with EmptyString => false | String _ _ => true end.

(** The arguments [_request] passes to [self._session.request]. *)
Definition build_request (self : LatticeClient) (method path : string)
    (data params : option dict) : Request := {|
  req_method := method;
  req_url := base_url self +:+ path;
  req_json := data;
  req_params := params;
  req_timeout := timeout self
|}.

(** [LatticeClient._request].  The inner handler catches the
    [json.JSONDecodeError] of [response.json()], the outer ones the exceptions
    of [requests], those of [response.json()] included; any other exception
    of the two library calls goes through to the caller. *)
Definition _request `{PyLib} (self : LatticeClient) (method path : string)
    (data params : option dict) : io (option ResponseContext.t) :=
  let url := base_url self +:+ path in
  let! o := send (build_request self method path data params) in
  match o with
  | Responded response =>
      if String.eqb (upper method) "HEAD" then
        ret (Some (ResponseContext.make
                     (Z.eqb (resp_status_code response) 200)
                     (resp_status_code response) VNone (resp_headers response)))
      else if nonempty (resp_content response) then
        match resp_json response with
        | Decoded response_data => lift (ResponseContext.from_dict response_data)
        | NotJson =>
            ret (Some (ResponseContext.make
                         (Z.ltb (resp_status_code response) 400)
                         (resp_status_code response)
                         (VStr (resp_text response)) (resp_headers response)))
        | JsonRequestException message =>
            raise (LatticeException ("Request failed: " +:+ message))
        | JsonRaised e => raise e
        end
      else
        ret (Some (ResponseContext.make
                     (Z.ltb (resp_status_code response) 400)
                     (resp_status_code response) VNone (resp_headers response)))
  | ConnectionError_ =>
      raise (LatticeConnectionError ("Failed to connect to " +:+ url))
  | Timeout_ =>
      raise (LatticeConnectionError ("Request to " +:+ url +:+ " timed out"))
  | RequestException_ message =>
      raise (LatticeException ("Request failed: " +:+ message))
  | Raised_ e => raise e
  end.

(** [response.success]: the attribute does not exist on [None], which is
    what [_request] returns for a body that is the JSON [null]. *)
Definition attr_success (response : option ResponseContext.t) : result value :=
  match response with
  | Some r => Ok (ResponseContext.success r)
  | None => Raise AttributeError
  end.

(** [LatticeClient.health_check] *)
Definition health_check `{PyLib} (self : LatticeClient) : io value :=
  except_LatticeException
    (let! response := _request self "GET" "/v1.0/health" None None in
     lift (attr_success response))
    (VBool false).

(** [response.success and response.data], as a test: the payload when both
    are truthy. *)
Definition success_and_data (response : option ResponseContext.t)
  : result (option value) :=
  rbind (attr_success response) (λ ok,
    match response with
    | Some r =>
        if truthy ok && truthy (ResponseContext.data r)
        then Ok (Some (ResponseContext.data r)) else Ok None
    | None => Raise AttributeError
    end).

(** [[X.from_dict(c) for c in v]] *)
Definition from_dict_each {A} (from_dict : value → result (option A)) (v : value)
  : result (list (option A)) :=
  rbind (iterate v) (rmap from_dict).

(** [v.get(k, dflt)] on a payload: only a dictionary has the method. *)
Definition attr_get (v : value) (k : string) (dflt : value) : result value :=
  match v with
  | VDict d => Ok (get d k dflt)
  | _ => Raise AttributeError
  end.

(** [str(b).lower()] *)
Definition py_str_bool (b : bool) : string := if b then "True" else "False".
Definition str_lower_bool `{PyLib} (b : bool) : string := lower (py_str_bool b).

(** [[c.to_dict() for c in field_constraints]] *)
Definition encode_constraints (cs : list FieldConstraint.t) : value :=
  VList ((λ c, VDict (FieldConstraint.to_dict c)) <$> cs).

(** The common endings of the operations: decode the payload of a successful
    envelope as one entity or as a list of entities, or give [None] / [[]]. *)
Definition decode_one {A} (from_dict : value → result (option A))
    (response : option ResponseContext.t) : io (option A) :=
  let! payload := lift (success_and_data response) in
  match payload with
  | Some d => lift (from_dict d)
  | None => ret None
  end.
Definition decode_list {A} (from_dict : value → result (option A))
    (response : option ResponseContext.t) : io (list (option A)) :=
  let! payload := lift (success_and_data response) in
  match payload with
  | Some d => lift (from_dict_each from_dict d)
  | None => ret []
  end.

(** ** Operation groups (client.py) *)

Module CollectionMethods.
(** The request body of [create]. *)
Definition create_data (name : string) (description documents_directory : option string)
    (labels : option (list string)) (tags : option (gmap string string))
    (schema_enforcement_mode : SchemaEnforcementMode)
    (field_constraints : option (list FieldConstraint.t))
    (indexing_mode : IndexingMode) (indexed_fields : option (list string)) : dict :=
  let data : dict := {[ "name" := VStr name ]} in
  let data :=
    set_if (nonempty (default "" description)) "description"
      (VStr (default "" description)) data in
  let data :=
    set_if (nonempty (default "" documents_directory)) "documentsDirectory"
      (VStr (default "" documents_directory)) data in
  let data :=
    set_if (SearchQuery.nonempty_list labels) "labels" (of_strs (default [] labels)) data in
  let data :=
    set_if (SearchQuery.nonempty_map tags) "tags" (of_str_map (default ∅ tags)) data in
  let data :=
    set_if (bool_decide (schema_enforcement_mode ≠ SEM_NONE)) "schemaEnforcementMode"
      (VStr (SchemaEnforcementMode_value schema_enforcement_mode)) data in
  let data :=
    set_if (SearchQuery.nonempty_list field_constraints) "fieldConstraints"
      (VList ((λ c, VDict (FieldConstraint.to_dict c)) <$> default [] field_constraints))
      data in
  let data :=
    set_if (bool_decide (indexing_mode ≠ IM_ALL)) "indexingMode"
      (VStr (IndexingMode_value indexing_mode)) data in
  let data :=
    set_if (SearchQuery.nonempty_list indexed_fields) "indexedFields"
      (of_strs (default [] indexed_fields)) data in
  data.

Definition create `{PyLib} (client : LatticeClient)
    (name : string) (description documents_directory : option string)
    (labels : option (list string)) (tags : option (gmap string string))
    (schema_enforcement_mode : SchemaEnforcementMode)
    (field_constraints : option (list FieldConstraint.t))
    (indexing_mode : IndexingMode) (indexed_fields : option (list string))
  : io (option Collection.t) :=
  let data :=
    create_data name description documents_directory labels tags
      schema_enforcement_mode field_constraints indexing_mode indexed_fields in
  let! response := _request client "PUT" "/v1.0/collections" (Some data) None in
  let! payload := lift (success_and_data response) in
  match payload with
  | Some d => lift (Collection.from_dict d)
  | None => ret None
  end.

Definition read_all `{PyLib} (client : LatticeClient)
  : io (list (option Collection.t)) :=
  let! response := _request client "GET" "/v1.0/collections" None None in
  decode_list Collection.from_dict response.

Definition read_by_id `{PyLib} (client : LatticeClient) (collection_id : string)
  : io (option Collection.t) :=
  let! response :=
    _request client "GET" ("/v1.0/collections/" +:+ collection_id) None None in
  decode_one Collection.from_dict response.

Definition exists_ `{PyLib} (client : LatticeClient) (collection_id : string)
  : io value :=
  let! response :=
    _request client "HEAD" ("/v1.0/collections/" +:+ collection_id) None None in
  lift (attr_success response).

Definition delete `{PyLib} (client : LatticeClient) (collection_id : string)
  : io value :=
  let! response :=
    _request client "DELETE" ("/v1.0/collections/" +:+ collection_id) None None in
  lift (attr_success response).

Definition get_constraints `{PyLib} (client : LatticeClient)
    (collection_id : string) : io (list (option FieldConstraint.t)) :=
  let! response :=
    _request client "GET"
      ("/v1.0/collections/" +:+ collection_id +:+ "/constraints") None None in
  let! payload := lift (success_and_data response) in
  match payload with
  | Some d =>
      let! field_constraints := lift (attr_get d "fieldConstraints" (VList [])) in
      if truthy field_constraints
      then lift (from_dict_each FieldConstraint.from_dict field_constraints)
      else ret []
  | None => ret []
  end.

(** The request body of [update_constraints]. *)
Definition update_constraints_data (schema_enforcement_mode : SchemaEnforcementMode)
    (field_constraints : option (list FieldConstraint.t)) : dict :=
  let data : dict :=
    {[ "schemaEnforcementMode" :=
         VStr (SchemaEnforcementMode_value schema_enforcement_mode) ]} in
  set_if (SearchQuery.nonempty_list field_constraints) "fieldConstraints"
    (encode_constraints (default [] field_constraints)) data.

Definition update_constraints `{PyLib} (client : LatticeClient)
    (collection_id : string) (schema_enforcement_mode : SchemaEnforcementMode)
    (field_constraints : option (list FieldConstraint.t)) : io value :=
  let data := update_constraints_data schema_enforcement_mode field_constraints in
  let! response :=
    _request client "PUT"
      ("/v1.0/collections/" +:+ collection_id +:+ "/constraints") (Some data) None in
  lift (attr_success response).

Definition get_indexed_fields `{PyLib} (client : LatticeClient)
    (collection_id : string) : io (list (option IndexedField.t)) :=
  let! response :=
    _request client "GET"
      ("/v1.0/collections/" +:+ collection_id +:+ "/indexing") None None in
  let! payload := lift (success_and_data response) in
  match payload with
  | Some d =>
      let! indexed_fields := lift (attr_get d "indexedFields" (VList [])) in
      if truthy indexed_fields
      then lift (from_dict_each IndexedField.from_dict indexed_fields)
      else ret []
  | None => ret []
  end.

(** The request body of [update_indexing]. *)
Definition update_indexing_data (indexing_mode : IndexingMode)
    (indexed_fields : option (list string)) (rebuild_indexes : bool) : dict :=
  let data : dict :=
    {[ "indexingMode" := VStr (IndexingMode_value indexing_mode);
       "rebuildIndexes" := VBool rebuild_indexes ]} in
  set_if (SearchQuery.nonempty_list indexed_fields) "indexedFields"
    (of_strs (default [] indexed_fields)) data.

Definition update_indexing `{PyLib} (client : LatticeClient)
    (collection_id : string) (indexing_mode : IndexingMode)
    (indexed_fields : option (list string)) (rebuild_indexes : bool) : io value :=
  let data := update_indexing_data indexing_mode indexed_fields rebuild_indexes in
  let! response :=
    _request client "PUT"
      ("/v1.0/collections/" +:+ collection_id +:+ "/indexing") (Some data) None in
  lift (attr_success response).

(** [rebuild_indexes]; its [progress_callback] argument is never used. *)
Definition rebuild_indexes `{PyLib} (client : LatticeClient)
    (collection_id : string) (drop_unused_indexes : bool)
  : io (option IndexRebuildResult.t) :=
  let data : dict := {[ "dropUnusedIndexes" := VBool drop_unused_indexes ]} in
  let! response :=
    _request client "POST"
      ("/v1.0/collections/" +:+ collection_id +:+ "/indexes/rebuild")
      (Some data) None in
  decode_one IndexRebuildResult.from_dict response.
End CollectionMethods.

Module SearchMethods.
Definition search `{PyLib} (client : LatticeClient) (query : SearchQuery.t)
  : io (option SearchResult.t) :=
  let! response := _request client "POST"
      ("/v1.0/collections/" +:+ SearchQuery.collection_id query +:+ "/documents/search")
      (Some (SearchQuery.to_dict query)) None in
  let! payload := lift (success_and_data response) in
  match payload with
  | Some d => lift (SearchResult.from_dict d)
  | None => ret None
  end.

(** Enumeration uses the same endpoint as search. *)
Definition enumerate `{PyLib} (client : LatticeClient) (query : SearchQuery.t)
  : io (option SearchResult.t) :=
  search client query.

Definition search_by_sql `{PyLib} (client : LatticeClient)
    (collection_id sql_expression : string) : io (option SearchResult.t) :=
  let data : dict := {[ "sqlExpression" := VStr sql_expression ]} in
  let! response := _request client "POST"
      ("/v1.0/collections/" +:+ collection_id +:+ "/documents/search")
      (Some data) None in
  decode_one SearchResult.from_dict response.
End SearchMethods.

(** The ways [DocumentMethods.read_by_id] ends.  Its second call goes to the
    session directly, outside the handlers of [_request]: [Done] is a value
    returned, or an exception raised by the metadata call; [Escaped] is the
    outcome of the content call when it is an exception, or the exception of
    [requests] that [content_response.json()] raises, which reach the caller
    as they are; [Undecoded] is an exception outside [requests] and other
    than [json.JSONDecodeError] raised by [content_response.json()], which
    reaches the caller as well. *)
Inductive escaped (A : Type) : Type :=
  | Done (r : result A)
  | Escaped (o : outcome)
  | Undecoded (e : pyexn).
Arguments Done {A} r.
Arguments Escaped {A} o.
Arguments Undecoded {A} e.

Module DocumentMethods.
(** The request body of [ingest]. *)
Definition ingest_data (content : value) (name : option string)
    (labels : option (list string)) (tags : option (gmap string string)) : dict :=
  let data : dict := {[ "content" := content ]} in
  let data :=
    set_if (nonempty (default "" name)) "name" (VStr (default "" name)) data in
  let data :=
    set_if (SearchQuery.nonempty_list labels) "labels" (of_strs (default [] labels)) data in
  let data :=
    set_if (SearchQuery.nonempty_map tags) "tags" (of_str_map (default ∅ tags)) data in
  data.

Definition ingest `{PyLib} (client : LatticeClient) (collection_id : string)
    (content : value) (name : option string) (labels : option (list string))
    (tags : option (gmap string string)) : io (option Document.t) :=
  let data := ingest_data content name labels tags in
  let! response :=
    _request client "PUT"
      ("/v1.0/collections/" +:+ collection_id +:+ "/documents") (Some data) None in
  decode_one Document.from_dict response.

(** The query parameters of [read_all_in_collection]. *)
Definition read_params `{PyLib} (include_content include_labels include_tags : bool)
  : dict :=
  {[ "includeContent" := VStr (str_lower_bool include_content);
     "includeLabels" := VStr (str_lower_bool include_labels);
     "includeTags" := VStr (str_lower_bool include_tags) ]}.

Definition read_all_in_collection `{PyLib} (client : LatticeClient)
    (collection_id : string) (include_content include_labels include_tags : bool)
  : io (list (option Document.t)) :=
  let params := read_params include_content include_labels include_tags in
  let! response :=
    _request client "GET"
      ("/v1.0/collections/" +:+ collection_id +:+ "/documents") None (Some params) in
  decode_list Document.from_dict response.

(** The query parameters of the first call of [read_by_id]: the content is
    never asked for there. *)
Definition metadata_params `{PyLib} (include_labels include_tags : bool) : dict :=
  {[ "includeContent" := VStr "false";
     "includeLabels" := VStr (str_lower_bool include_labels);
     "includeTags" := VStr (str_lower_bool include_tags) ]}.

(** The second call of [read_by_id]: [self._client._session.get(...)]. *)
Definition content_request (client : LatticeClient)
    (collection_id document_id : string) : Request := {|
  req_method := "GET";
  req_url := base_url client +:+ "/v1.0/collections/" +:+ collection_id
             +:+ "/documents/" +:+ document_id;
  req_json := None;
  req_params := Some {[ "includeContent" := VStr "true" ]};
  req_timeout := timeout client
|}.

(** The end of [read_by_id] once the content call is answered: at status
    200 the content of the document becomes the decoded body, or the text when
    the decoder rejects the body with a [json.JSONDecodeError]; any other
    exception of the decoder is not caught.  Then the document is returned. *)
Definition merge_content (document : Document.t) (content_response : Response)
  : escaped (option Document.t) :=
  if Z.eqb (resp_status_code content_response) 200 then
    match resp_json content_response with
    | Decoded v => Done (Ok (Some (Document.set_content document v)))
    | NotJson =>
        Done (Ok (Some (Document.set_content document
                          (VStr (resp_text content_response)))))
    | JsonRequestException message => Escaped (RequestException_ message)
    | JsonRaised e => Undecoded e
    end
  else Done (Ok (Some document)).

Definition read_by_id `{PyLib} (client : LatticeClient)
    (collection_id document_id : string)
    (include_content include_labels include_tags : bool)
  : session → list Request → escaped (option Document.t) * list Request :=
  λ net log,
    let params := metadata_params include_labels include_tags in
    match
      (let! response :=
         _request client "GET"
           ("/v1.0/collections/" +:+ collection_id +:+ "/documents/" +:+ document_id)
           None (Some params) in
       decode_one Document.from_dict response) net log
    with
    | (Raise e, log') => (Done (Raise e), log')
    | (Ok None, log') => (Done (Ok None), log')
    | (Ok (Some document), log') =>
        if include_content then
          let r := content_request client collection_id document_id in
          match net log' r with
          | Responded content_response =>
              (merge_content document content_response, (log' ++ [r])%list)
          | o => (Escaped o, (log' ++ [r])%list)
          end
        else (Done (Ok (Some document)), log')
    end.

Definition exists_ `{PyLib} (client : LatticeClient)
    (collection_id document_id : string) : io value :=
  let! response :=
    _request client "HEAD"
      ("/v1.0/collections/" +:+ collection_id +:+ "/documents/" +:+ document_id)
      None None in
  lift (attr_success response).

Definition delete `{PyLib} (client : LatticeClient)
    (collection_id document_id : string) : io value :=
  let! response :=
    _request client "DELETE"
      ("/v1.0/collections/" +:+ collection_id +:+ "/documents/" +:+ document_id)
      None None in
  lift (attr_success response).
End DocumentMethods.

Module SchemaMethods.
Definition read_all `{PyLib} (client : LatticeClient)
  : io (list (option Schema.t)) :=
  let! response := _request client "GET" "/v1.0/schemas" None None in
  decode_list Schema.from_dict response.

Definition read_by_id `{PyLib} (client : LatticeClient) (schema_id : string)
  : io (option Schema.t) :=
  let! response := _request client "GET" ("/v1.0/schemas/" +:+ schema_id) None None in
  decode_one Schema.from_dict response.

Definition get_elements `{PyLib} (client : LatticeClient) (schema_id : string)
  : io (list (option SchemaElement.t)) :=
  let! response :=
    _request client "GET" ("/v1.0/schemas/" +:+ schema_id +:+ "/elements") None None in
  decode_list SchemaElement.from_dict response.
End SchemaMethods.

Module IndexMethods.
Definition get_mappings `{PyLib} (client : LatticeClient)
  : io (list (option IndexTableMapping.t)) :=
  let! response := _request client "GET" "/v1.0/tables" None None in
  decode_list IndexTableMapping.from_dict response.
End IndexMethods.

(** ** Auxiliary predicates and sample data *)

(** A library whose parser accepts one text only and whose case mappings
    are the ASCII ones. *)
Definition sample_datetime : datetime := {|
  year := 2024; month := 1; day := 15;
  hour := 10; minute := 30; second := 0; microsecond := 0;
  utcoffset := None
|}.
Definition sample_lib : PyLib := {|
  fromisoformat :=
    λ s, if String.eqb s "2024-01-15T10:30:00" then Some sample_datetime else None;
  upper := ascii_upper;
  lower := ascii_lower;
  upper_of_ascii := λ _ _, eq_refl;
  lower_of_ascii := λ _ _, eq_refl
|}.

(** [documents] is absent, falsy, or a list of objects and nulls: the shapes
    the comprehension of [SearchResult.from_dict] goes through. *)
Definition is_object_or_null (v : value) : bool :=
  match v with VNone | VDict _ => true | _ => false end.
Definition documents_decodable (d : dict) : bool :=
  match d !! "documents" with
  | None => true
  | Some v =>
      negb (truthy v)
      || match v with VList l => forallb is_object_or_null l | _ => false end
  end.

(** A wire object that carries a name and nothing else. *)
Definition sample_wire : dict := {[ "name" := VStr "orders" ]}.

(** A constraint on a price field, and a query with one filter. *)
Definition sample_constraint : FieldConstraint.t := {|
  FieldConstraint.id := VStr "";
  FieldConstraint.collection_id := VStr "col_1";
  FieldConstraint.field_path := VStr "price";
  FieldConstraint.data_type := VStr "number";
  FieldConstraint.required := VBool true;
  FieldConstraint.nullable := VBool false;
  FieldConstraint.regex_pattern := VStr "";
  FieldConstraint.min_value := VInt 0;
  FieldConstraint.max_value := VNone;
  FieldConstraint.min_length := VNone;
  FieldConstraint.max_length := VNone;
  FieldConstraint.allowed_values := VList [];
  FieldConstraint.array_element_type := VNone;
  FieldConstraint.created_utc := Some sample_datetime;
  FieldConstraint.last_update_utc := None
|}.
Definition sample_query : SearchQuery.t := {|
  SearchQuery.collection_id := "col_1";
  SearchQuery.filters :=
    Some [ {| SearchFilter.field := "Category"; SearchFilter.condition := EQUALS;
              SearchFilter.value_ := Some "Category_2" |} ];
  SearchQuery.labels := Some [];
  SearchQuery.tags := None;
  SearchQuery.max_results := Some 0%Z;
  SearchQuery.skip := None;
  SearchQuery.ordering := Some NAME_ASCENDING;
  SearchQuery.include_content := false
|}.

(** A client, and sessions that give every request the same outcome: a
    connection refused, and a response with the given status and body. *)
Definition sample_client : LatticeClient := new_client "http://localhost:8000/" 30.
Definition refused : session := λ _ _, ConnectionError_.
Definition answers (status : Z) (body : string) (decoded : option value) : session :=
  λ _ _, Responded {| resp_status_code := status; resp_content := body;
                      resp_text := body;
                      resp_json := match decoded with
                                   | Some v => Decoded v
                                   | None => NotJson
                                   end;
                      resp_headers := ∅ |}.

(** A body of 100000 opening brackets, on which [response.json()] raises a
    [RecursionError], and the session that answers with it. *)
Definition deep_body : string :=
  Pos.iter (String "["%char) EmptyString 100000.
Definition deep_response (status : Z) : Response := {|
  resp_status_code := status; resp_content := deep_body; resp_text := deep_body;
  resp_json := JsonRaised RecursionError; resp_headers := ∅
|}.
Definition answers_deep (status : Z) : session :=
  λ _ _, Responded (deep_response status).

(** The outcomes that make [health_check] raise: an exception of the
    session outside [requests], and a response with a body on which
    [response.json()] raises an exception that is neither a
    [json.JSONDecodeError] nor one of [requests], or returns something else
    than an object. *)
Definition escapes_health_check (o : outcome) : bool :=
  match o with
  | Responded response =>
      nonempty (resp_content response)
      && match resp_json response with
         | Decoded (VDict _) | NotJson | JsonRequestException _ => false
         | Decoded _ | JsonRaised _ => true
         end
  | Raised_ _ => true
  | ConnectionError_ | Timeout_ | RequestException_ _ => false
  end.

(** The result is a raised [LatticeValidationError]. *)
Definition is_validation_error {A} (r : result A) : bool :=
  match r with Raise (LatticeValidationError _ _) => true | _ => false end.

(** Wire objects whose timestamp is an envelope with a [utc] sub-field. *)
Definition utc_envelope : value := VDict {[ "utc" := VStr "2024-01-15T10:30:00Z" ]}.
Definition sample_created_envelope : dict := {[ "createdUtc" := utc_envelope ]}.
Definition sample_timestamp_envelope : dict := {[ "timestamp" := utc_envelope ]}.

(** A null test built with a value, as nothing prevents. *)
Definition sample_null_filter : SearchFilter.t := {|
  SearchFilter.field := "Name";
  SearchFilter.condition := IS_NULL;
  SearchFilter.value_ := Some "x"
|}.

(** The "not set" values of the encoders: [None], the empty string, the empty
    list or dictionary, [False]. *)
Definition not_set (v : value) : bool :=
  match v with
  | VNone | VBool false | VStr EmptyString | VList [] => true
  | VDict d => Nat.eqb (size d) 0
  | _ => false
  end.
(** An explicit null or an empty string or collection. *)
Definition null_or_empty (v : value) : bool :=
  match v with
  | VNone | VStr EmptyString | VList [] => true
  | VDict d => Nat.eqb (size d) 0
  | _ => false
  end.
(** [Some v] unless [c]. *)
Definition unless (c : bool) (v : value) : option value :=
  if c then None else Some v.

(** The wire names [FieldConstraint.to_dict] and [SearchQuery.to_dict] can
    emit. *)
Definition FieldConstraint_wire_names : list string :=
  ["fieldPath"; "dataType"; "required"; "nullable"; "regexPattern"; "minValue";
   "maxValue"; "minLength"; "maxLength"; "allowedValues"; "arrayElementType"].
Definition SearchQuery_wire_names : list string :=
  ["filters"; "labels"; "tags"; "maxResults"; "skip"; "ordering"; "includeContent"].

(** A field constraint that its wire form determines: nothing is held by the
    fields the encoder never emits, and no optional text or list is empty
    without being [None]. *)
Definition is_empty_str (v : value) : bool :=
  match v with VStr EmptyString => true | _ => false end.
Definition is_False (v : value) : bool :=
  match v with VBool false => true | _ => false end.
Definition is_True (v : value) : bool :=
  match v with VBool true => true | _ => false end.
Definition canonical (x : FieldConstraint.t) : bool :=
  is_empty_str (FieldConstraint.id x)
  && is_empty_str (FieldConstraint.collection_id x)
  && bool_decide (FieldConstraint.created_utc x = None)
  && bool_decide (FieldConstraint.last_update_utc x = None)
  && (is_None (FieldConstraint.data_type x) || truthy (FieldConstraint.data_type x))
  && (is_False (FieldConstraint.required x) || truthy (FieldConstraint.required x))
  && (is_True (FieldConstraint.nullable x) || negb (truthy (FieldConstraint.nullable x)))
  && (is_None (FieldConstraint.regex_pattern x)
      || truthy (FieldConstraint.regex_pattern x))
  && (is_None (FieldConstraint.allowed_values x)
      || truthy (FieldConstraint.allowed_values x))
  && (is_None (FieldConstraint.array_element_type x)
      || truthy (FieldConstraint.array_element_type x)).

Definition sample_canonical : FieldConstraint.t := {|
  FieldConstraint.id := VStr "";
  FieldConstraint.collection_id := VStr "";
  FieldConstraint.field_path := VStr "price";
  FieldConstraint.data_type := VStr "number";
  FieldConstraint.required := VBool true;
  FieldConstraint.nullable := VBool false;
  FieldConstraint.regex_pattern := VNone;
  FieldConstraint.min_value := VInt 0;
  FieldConstraint.max_value := VNone;
  FieldConstraint.min_length := VNone;
  FieldConstraint.max_length := VNone;
  FieldConstraint.allowed_values := VNone;
  FieldConstraint.array_element_type := VNone;
  FieldConstraint.created_utc := None;
  FieldConstraint.last_update_utc := None
|}.

(** A page of two documents. *)
Definition sample_page : list dict :=
  [ {[ "id" := VStr "doc_1" ]}; {[ "id" := VStr "doc_2"; "name" := VNone ]} ].
Definition sample_result_wire : dict :=
  {[ "success" := VBool true; "documents" := VList (VDict <$> sample_page) ]}.

(** The outcome is an exception of [requests]. *)
Definition is_fault (o : outcome) : bool :=
  match o with
  | ConnectionError_ | Timeout_ | RequestException_ _ => true
  | Responded _ | Raised_ _ => false
  end.

(** A response whose body is the given JSON envelope, and one whose body
    is not JSON. *)
Definition envelope_response (status : Z) (body : string) (envelope : dict)
  : Response := {|
  resp_status_code := status; resp_content := body; resp_text := body;
  resp_json := Decoded (VDict envelope); resp_headers := ∅
|}.
Definition sample_envelope : dict :=
  {[ "success" := VBool true;
     "data" := VDict {[ "id" := VStr "col_1"; "name" := VStr "orders" ]} ]}.
Definition sample_list_envelope : dict :=
  {[ "success" := VBool true;
     "data" := VList [VDict {[ "id" := VStr "col_1" ]}; VDict {[ "id" := VStr "col_2" ]}] ]}.
Definition sample_document_envelope : dict :=
  {[ "success" := VBool true;
     "data" := VDict {[ "id" := VStr "doc_1"; "collectionId" := VStr "col_1" ]} ]}.

(** A session that answers the metadata call of a document read with the
    sample envelope and refuses the content call, told apart by their query
    parameters. *)
Definition is_content_call (r : Request) : bool :=
  match req_params r with
  | Some ps => match ps !! "includeContent" with
               | Some (VStr "true") => true
               | _ => false
               end
  | None => false
  end.
Definition metadata_then (o : outcome) : session :=
  λ _ r,
    if is_content_call r then o
    else Responded (envelope_response 200 "{...}" sample_document_envelope).

(** * Properties *)

(** ** Decoding *)

Section decoding.
Context `{PyLib}.

Lemma parse_enforcement_default :
  _parse_schema_enforcement_mode (VStr "None") = SEM_NONE.
Proof. cbn. by rewrite (lower_of_ascii "None" eq_refl). Qed.

Lemma parse_indexing_default : _parse_indexing_mode (VStr "All") = IM_ALL.
Proof. cbn. by rewrite (lower_of_ascii "All" eq_refl). Qed.

Lemma get_missing (d : dict) (k : string) (dflt : value) :
  d !! k = None → get d k dflt = dflt.
Proof. intros Hk. unfold get. by rewrite Hk. Qed.

Lemma get1_missing (d : dict) (k : string) : d !! k = None → get1 d k = VNone.
Proof. apply get_missing. Qed.

Lemma rmap_from_dict_objects (l : list value) :
  forallb is_object_or_null l = true →
  ∃ docs, rmap Document.from_dict l = Ok docs ∧ length docs = length l.
Proof.
  induction l as [|v l IH]; intros Hl.
  - exists []. done.
  - cbn in Hl. apply andb_prop in Hl as [Hv Hl].
    destruct (IH Hl) as (docs & Hdocs & Hlen).
    destruct v; try discriminate; cbn; rewrite Hdocs; cbn;
      eexists; (split; [reflexivity | cbn; by rewrite Hlen]).
Qed.

Lemma rmap_from_dict_raises (l : list value) :
  forallb is_object_or_null l = false →
  rmap Document.from_dict l = Raise AttributeError.
Proof.
  induction l as [|v l IH]; intros Hl; [discriminate|].
  cbn in Hl. destruct v; cbn in *; try reflexivity.
  - rewrite (IH Hl). reflexivity.
  - rewrite (IH Hl). reflexivity.
Qed.

Lemma decode_documents_ok (d : dict) :
  documents_decodable d = true →
  ∃ docs, SearchResult.decode_documents d = Ok docs
          ∧ (d !! "documents" = None → docs = []).
Proof.
  unfold documents_decodable, SearchResult.decode_documents, get1, get, getitem.
  destruct (d !! "documents") as [v|] eqn:Hv; cbn.
  - destruct (truthy v) eqn:Ht; cbn; [|intros _; by exists []].
    intros Hl. destruct v; try discriminate. cbn.
    destruct (rmap_from_dict_objects _ Hl) as (docs & -> & _).
    exists docs. done.
  - intros _. by exists [].
Qed.

Lemma decode_timestamp_ok (d : dict) :
  ∃ ts, SearchResult.decode_timestamp d = Ok ts
        ∧ (d !! "timestamp" = None → ts = None).
Proof.
  unfold SearchResult.decode_timestamp, get1, get, getitem.
  destruct (d !! "timestamp") as [v|] eqn:Hv; cbn.
  - destruct (truthy v); [|by exists None].
    destruct v; eexists; (split; [reflexivity | done]).
  - by exists None.
Qed.

End decoding.

Ltac missing_default :=
  intros; cbn -[_parse_schema_enforcement_mode _parse_indexing_mode];
  repeat match goal with
         | Hk : ?d !! ?k = None |- context [get1 ?d ?k] =>
             rewrite (get1_missing d k Hk)
         | Hk : ?d !! ?k = None |- context [get ?d ?k ?v] =>
             rewrite (get_missing d k v Hk)
         end;
  rewrite ?parse_enforcement_default, ?parse_indexing_default;
  reflexivity.

(** C1 (as amended).  Decoding a wire object never raises and gives every
    missing field its default: the empty string for string ids, names, keys
    and paths, the empty list for label, index and error lists, the empty map
    for tags and headers, [False] for booleans except
    [FieldConstraint.nullable], whose default is [True], [0] for counts and
    durations, [None] for optional fields and timestamps, [NONE] and [ALL]
    for the two modes of a collection.  For [SearchResult] this is so when
    the [documents] value, if present, is falsy or a list of objects and
    nulls. *)
Theorem decode_missing_fields_default `{PyLib} (d : dict) :
  (* Collection *)
  (Collection.from_dict (VDict d) = Ok (Some (Collection.decode d))
   ∧ let c := Collection.decode d in
     (d !! "id" = None → Collection.id c = VStr "")
     ∧ (d !! "name" = None → Collection.name c = VStr "")
     ∧ (d !! "description" = None → Collection.description c = VNone)
     ∧ (d !! "documentsDirectory" = None → Collection.documents_directory c = VNone)
     ∧ (d !! "labels" = None → Collection.labels c = VList [])
     ∧ (d !! "tags" = None → Collection.tags c = VDict ∅)
     ∧ (d !! "createdUtc" = None → Collection.created_utc c = None)
     ∧ (d !! "lastUpdateUtc" = None → Collection.last_update_utc c = None)
     ∧ (d !! "schemaEnforcementMode" = None →
        Collection.schema_enforcement_mode c = SEM_NONE)
     ∧ (d !! "indexingMode" = None → Collection.indexing_mode c = IM_ALL))
  (* Document *)
  ∧ (Document.from_dict (VDict d) = Ok (Some (Document.decode d))
     ∧ let c := Document.decode d in
       (d !! "id" = None → Document.id c = VStr "")
       ∧ (d !! "collectionId" = None → Document.collection_id c = VStr "")
       ∧ (d !! "schemaId" = None → Document.schema_id c = VStr "")
       ∧ (d !! "name" = None → Document.name c = VNone)
       ∧ (d !! "labels" = None → Document.labels c = VList [])
       ∧ (d !! "tags" = None → Document.tags c = VDict ∅)
       ∧ (d !! "createdUtc" = None → Document.created_utc c = None)
       ∧ (d !! "lastUpdateUtc" = None → Document.last_update_utc c = None)
       ∧ (d !! "content" = None → Document.content c = VNone)
       ∧ (d !! "contentLength" = None → Document.content_length c = VInt 0)
       ∧ (d !! "sha256Hash" = None → Document.sha256_hash c = VNone))
  (* Schema *)
  ∧ (Schema.from_dict (VDict d) = Ok (Some (Schema.decode d))
     ∧ let c := Schema.decode d in
       (d !! "id" = None → Schema.id c = VStr "")
       ∧ (d !! "name" = None → Schema.name c = VNone)
       ∧ (d !! "hash" = None → Schema.hash c = VNone)
       ∧ (d !! "createdUtc" = None → Schema.created_utc c = None)
       ∧ (d !! "lastUpdateUtc" = None → Schema.last_update_utc c = None))
  (* SchemaElement *)
  ∧ (SchemaElement.from_dict (VDict d) = Ok (Some (SchemaElement.decode d))
     ∧ let c := SchemaElement.decode d in
       (d !! "id" = None → SchemaElement.id c = VStr "")
       ∧ (d !! "schemaId" = None → SchemaElement.schema_id c = VStr "")
       ∧ (d !! "position" = None → SchemaElement.position c = VInt 0)
       ∧ (d !! "key" = None → SchemaElement.key c = VStr "")
       ∧ (d !! "dataType" = None → SchemaElement.data_type c = VStr "")
       ∧ (d !! "nullable" = None → SchemaElement.nullable c = VBool false)
       ∧ (d !! "createdUtc" = None → SchemaElement.created_utc c = None)
       ∧ (d !! "lastUpdateUtc" = None → SchemaElement.last_update_utc c = None))
  (* FieldConstraint *)
  ∧ (FieldConstraint.from_dict (VDict d) = Ok (Some (FieldConstraint.decode d))
     ∧ let c := FieldConstraint.decode d in
       (d !! "id" = None → FieldConstraint.id c = VStr "")
       ∧ (d !! "collectionId" = None → FieldConstraint.collection_id c = VStr "")
       ∧ (d !! "fieldPath" = None → FieldConstraint.field_path c = VStr "")
       ∧ (d !! "dataType" = None → FieldConstraint.data_type c = VNone)
       ∧ (d !! "required" = None → FieldConstraint.required c = VBool false)
       ∧ (d !! "nullable" = None → FieldConstraint.nullable c = VBool true)
       ∧ (d !! "regexPattern" = None → FieldConstraint.regex_pattern c = VNone)
       ∧ (d !! "minValue" = None → FieldConstraint.min_value c = VNone)
       ∧ (d !! "maxValue" = None → FieldConstraint.max_value c = VNone)
       ∧ (d !! "minLength" = None → FieldConstraint.min_length c = VNone)
       ∧ (d !! "maxLength" = None → FieldConstraint.max_length c = VNone)
       ∧ (d !! "allowedValues" = None → FieldConstraint.allowed_values c = VNone)
       ∧ (d !! "arrayElementType" = None →
          FieldConstraint.array_element_type c = VNone)
       ∧ (d !! "createdUtc" = None → FieldConstraint.created_utc c = None)
       ∧ (d !! "lastUpdateUtc" = None → FieldConstraint.last_update_utc c = None))
  (* IndexedField *)
  ∧ (IndexedField.from_dict (VDict d) = Ok (Some (IndexedField.decode d))
     ∧ let c := IndexedField.decode d in
       (d !! "id" = None → IndexedField.id c = VStr "")
       ∧ (d !! "collectionId" = None → IndexedField.collection_id c = VStr "")
       ∧ (d !! "fieldPath" = None → IndexedField.field_path c = VStr "")
       ∧ (d !! "createdUtc" = None → IndexedField.created_utc c = None)
       ∧ (d !! "lastUpdateUtc" = None → IndexedField.last_update_utc c = None))
  (* SearchResult *)
  ∧ (documents_decodable d = true →
     ∃ c, SearchResult.from_dict (VDict d) = Ok (Some c)
       ∧ (d !! "success" = None → SearchResult.success c = VBool false)
       ∧ (d !! "timestamp" = None → SearchResult.timestamp c = None)
       ∧ (d !! "maxResults" = None → SearchResult.max_results c = VNone)
       ∧ (d !! "continuationToken" = None →
          SearchResult.continuation_token c = VNone)
       ∧ (d !! "endOfResults" = None → SearchResult.end_of_results c = VBool false)
       ∧ (d !! "totalRecords" = None → SearchResult.total_records c = VInt 0)
       ∧ (d !! "recordsRemaining" = None →
          SearchResult.records_remaining c = VInt 0)
       ∧ (d !! "documents" = None → SearchResult.documents c = []))
  (* IndexRebuildResult *)
  ∧ (IndexRebuildResult.from_dict (VDict d) = Ok (Some (IndexRebuildResult.decode d))
     ∧ let c := IndexRebuildResult.decode d in
       (d !! "collectionId" = None → IndexRebuildResult.collection_id c = VStr "")
       ∧ (d !! "documentsProcessed" = None →
          IndexRebuildResult.documents_processed c = VInt 0)
       ∧ (d !! "indexesCreated" = None →
          IndexRebuildResult.indexes_created c = VList [])
       ∧ (d !! "indexesDropped" = None →
          IndexRebuildResult.indexes_dropped c = VList [])
       ∧ (d !! "valuesInserted" = None →
          IndexRebuildResult.values_inserted c = VInt 0)
       ∧ (d !! "duration" = None → IndexRebuildResult.duration c = VNone)
       ∧ (d !! "durationMs" = None → IndexRebuildResult.duration_ms c = VInt 0)
       ∧ (d !! "errors" = None → IndexRebuildResult.errors c = VList [])
       ∧ (d !! "success" = None → IndexRebuildResult.success c = VBool false))
  (* ResponseContext *)
  ∧ (ResponseContext.from_dict (VDict d) = Ok (Some (ResponseContext.decode d))
     ∧ let c := ResponseContext.decode d in
       (d !! "success" = None → ResponseContext.success c = VBool false)
       ∧ (d !! "statusCode" = None → ResponseContext.status_code c = VInt 0)
       ∧ (d !! "errorMessage" = None → ResponseContext.error_message c = VNone)
       ∧ (d !! "data" = None → ResponseContext.data c = VNone)
       ∧ (d !! "headers" = None → ResponseContext.headers c = VDict ∅)
       ∧ (d !! "processingTimeMs" = None →
          ResponseContext.processing_time_ms c = VInt 0)
       ∧ (d !! "guid" = None → ResponseContext.guid c = VNone)
       ∧ (d !! "timestampUtc" = None → ResponseContext.timestamp_utc c = None))
  (* IndexTableMapping *)
  ∧ (IndexTableMapping.from_dict (VDict d) = Ok (Some (IndexTableMapping.decode d))
     ∧ let c := IndexTableMapping.decode d in
       (d !! "key" = None → IndexTableMapping.key c = VStr "")
       ∧ (d !! "tableName" = None → IndexTableMapping.table_name c = VStr "")).
Proof.
  cbv zeta.
  destruct (decode_timestamp_ok d) as (ts & Ht & Hts0).
  repeat lazymatch goal with
         | |- _ ∧ _ => split
         | |- documents_decodable _ = true → _ =>
             let Hdocs := fresh "Hdocs" in
             intros Hdocs;
             destruct (decode_documents_ok d Hdocs) as (docs & Hd & Hdocs0);
             eexists; split;
             [cbn; unfold SearchResult.decode; rewrite Hd, Ht; reflexivity|]
         end;
    try reflexivity; try missing_default.
  - exact Hts0.
  - exact Hdocs0.
Qed.

Lemma decode_missing_fields_default_witness :
  documents_decodable sample_wire = true
  ∧ Collection.name (@Collection.decode sample_lib sample_wire) = VStr "orders"
  ∧ Collection.id (@Collection.decode sample_lib sample_wire) = VStr ""
  ∧ Collection.tags (@Collection.decode sample_lib sample_wire) = VDict ∅
  ∧ Collection.indexing_mode (@Collection.decode sample_lib sample_wire) = IM_ALL
  ∧ FieldConstraint.nullable (@FieldConstraint.decode sample_lib sample_wire)
    = VBool true
  ∧ ∃ r, @SearchResult.from_dict sample_lib (VDict sample_wire) = Ok (Some r)
         ∧ SearchResult.total_records r = VInt 0
         ∧ SearchResult.documents r = [].
Proof.
  split; [reflexivity|].
  destruct (@decode_missing_fields_default sample_lib sample_wire)
    as ((_ & Hid & _ & _ & _ & _ & Htags & _ & _ & _ & Him)
        & _ & _ & _ & (_ & _ & _ & _ & _ & _ & Hnull & _)
        & _ & Hresult & _).
  destruct (Hresult eq_refl) as (r & Hr & _ & _ & _ & _ & _ & Htotal & _ & Hdocs).
  split; [reflexivity|].
  split; [apply Hid; reflexivity|].
  split; [apply Htags; reflexivity|].
  split; [apply Him; reflexivity|].
  split; [apply Hnull; reflexivity|].
  exists r. split; [exact Hr|].
  split; [apply Htotal; reflexivity | apply Hdocs; reflexivity].
Defined.

(** C1 (as stated) fails on the boolean [nullable] of a field constraint:
    the empty wire object decodes without raising, and the missing
    [nullable] comes back [True], not [False]. *)
Lemma nullable_missing_decodes_true :
  (∅ : dict) !! "nullable" = None
  ∧ ∃ x, @FieldConstraint.from_dict sample_lib (VDict ∅) = Ok (Some x)
         ∧ FieldConstraint.nullable x = VBool true
         ∧ FieldConstraint.nullable x ≠ VBool false.
Proof.
  split; [reflexivity|].
  eexists. split; [reflexivity|]. split; [reflexivity | discriminate].
Qed.

(** ** Encoding *)

Lemma lookup_set_if_eq (c : bool) (k : string) (v : value) (d : dict) :
  set_if c k v d !! k = if c then Some v else d !! k.
Proof. destruct c; cbn; [apply lookup_insert_eq | reflexivity]. Qed.

Lemma lookup_set_if_ne (c : bool) (k k' : string) (v : value) (d : dict) :
  k ≠ k' → set_if c k v d !! k' = d !! k'.
Proof. intros Hne. destruct c; cbn; [by apply lookup_insert_ne | reflexivity]. Qed.

Lemma lookup_set_if_Some (c : bool) (k k' : string) (v v' : value) (d : dict) :
  set_if c k v d !! k' = Some v' →
  (c = true ∧ k' = k ∧ v' = v) ∨ d !! k' = Some v'.
Proof.
  destruct c; cbn; [|by right].
  destruct (decide (k = k')) as [->|Hne].
  - rewrite lookup_insert_eq. intros [= ->]. by left.
  - rewrite lookup_insert_ne by done. by right.
Qed.


(** Resolve a lookup at a literal key through a chain of conditional and
    plain assignments at literal keys. *)
Ltac lookup_chain :=
  repeat first
    [ rewrite lookup_set_if_eq
    | rewrite lookup_set_if_ne by discriminate
    | rewrite lookup_insert_eq
    | rewrite lookup_insert_ne by discriminate
    | rewrite lookup_singleton_eq
    | rewrite lookup_singleton_ne by discriminate
    | rewrite lookup_empty ].

Lemma truthy_not_set (v : value) :
  match v with VInt _ | VFloat _ => False | _ => True end →
  truthy v = negb (not_set v).
Proof.
  destruct v as [| [] | | | [] | [] |]; cbn; try done.
Qed.

Ltac split_conj := repeat lazymatch goal with |- _ ∧ _ => split end.

Lemma map_Forall_set_if (P : string → value → Prop) (c : bool) (k : string)
    (v : value) (d : dict) :
  (c = true → P k v) → map_Forall P d → map_Forall P (set_if c k v d).
Proof.
  intros Hv Hd. destruct c; cbn; [|done].
  apply map_Forall_insert_2; auto.
Qed.

Lemma wire_names_set_if (names : list string) (c : bool) (k : string)
    (v : value) (d : dict) :
  k ∈ names → (∀ k', is_Some (d !! k') → k' ∈ names) →
  ∀ k', is_Some (set_if c k v d !! k') → k' ∈ names.
Proof.
  intros Hk Hd k' [v' Hv'].
  destruct (lookup_set_if_Some _ _ _ _ _ _ Hv') as [(_ & -> & _)|Hd']; [done|].
  apply Hd. by exists v'.
Qed.

Lemma wire_names_insert (names : list string) (k : string) (v : value) (d : dict) :
  k ∈ names → (∀ k', is_Some (d !! k') → k' ∈ names) →
  ∀ k', is_Some (<[k := v]> d !! k') → k' ∈ names.
Proof. apply (wire_names_set_if names true). Qed.

Lemma wire_names_empty (names : list string) (k' : string) :
  is_Some ((∅ : dict) !! k') → k' ∈ names.
Proof. rewrite lookup_empty. by intros [? ?]. Qed.

Lemma truthy_set (v : value) : truthy v = true → null_or_empty v = false.
Proof.
  destruct v as [| [] | | | [] | [] |]; cbn; try done.
  by intros ->%negb_true_iff.
Qed.

Lemma size_of_str_map (m : gmap string string) : size (VStr <$> m) = size m.
Proof. apply map_size_fmap. Qed.

(** C2 (as amended).  A well-typed field constraint always carries
    [fieldPath] on the wire, whatever its value; each other wire field is
    omitted exactly when it is not set -- [None] or empty for the optional
    texts and the list, [False] for [required], [True] (its default) for
    [nullable], [None] for the four bounds -- and when present it holds the
    field's value, never a null or an empty text or list; [id],
    [collection_id] and the timestamps are never emitted.  A search query
    emits [filters], [labels] and [tags] exactly when they are neither [None]
    nor empty, [maxResults], [skip] and [ordering] exactly when they are not
    [None], [includeContent] exactly when it is [True], nothing else, and no
    value that is not set. *)
Theorem encode_omits_unset_fields (x : FieldConstraint.t) (q : SearchQuery.t) :
  FieldConstraint.well_typed x = true →
  let w := FieldConstraint.to_dict x in
  let b := SearchQuery.to_dict q in
  w !! "fieldPath" = Some (FieldConstraint.field_path x)
  ∧ w !! "dataType"
    = unless (not_set (FieldConstraint.data_type x)) (FieldConstraint.data_type x)
  ∧ w !! "required"
    = unless (not_set (FieldConstraint.required x)) (FieldConstraint.required x)
  ∧ w !! "nullable"
    = match FieldConstraint.nullable x with VBool true => None | v => Some v end
  ∧ w !! "regexPattern"
    = unless (not_set (FieldConstraint.regex_pattern x))
        (FieldConstraint.regex_pattern x)
  ∧ w !! "minValue"
    = unless (is_None (FieldConstraint.min_value x)) (FieldConstraint.min_value x)
  ∧ w !! "maxValue"
    = unless (is_None (FieldConstraint.max_value x)) (FieldConstraint.max_value x)
  ∧ w !! "minLength"
    = unless (is_None (FieldConstraint.min_length x)) (FieldConstraint.min_length x)
  ∧ w !! "maxLength"
    = unless (is_None (FieldConstraint.max_length x)) (FieldConstraint.max_length x)
  ∧ w !! "allowedValues"
    = unless (not_set (FieldConstraint.allowed_values x))
        (FieldConstraint.allowed_values x)
  ∧ w !! "arrayElementType"
    = unless (not_set (FieldConstraint.array_element_type x))
        (FieldConstraint.array_element_type x)
  ∧ (∀ k, is_Some (w !! k) → k ∈ FieldConstraint_wire_names)
  ∧ map_Forall (λ k v, k ≠ "fieldPath" → null_or_empty v = false) w
  ∧ b !! "filters"
    = match SearchQuery.filters q with
      | Some (f :: fs) =>
          Some (VList ((λ f, VDict (SearchFilter.to_dict f)) <$> f :: fs))
      | _ => None
      end
  ∧ b !! "labels"
    = match SearchQuery.labels q with
      | Some (l :: ls) => Some (of_strs (l :: ls))
      | _ => None
      end
  ∧ b !! "tags"
    = match SearchQuery.tags q with
      | Some m => if Nat.eqb (size m) 0 then None else Some (of_str_map m)
      | None => None
      end
  ∧ b !! "maxResults" = VInt <$> SearchQuery.max_results q
  ∧ b !! "skip" = VInt <$> SearchQuery.skip q
  ∧ b !! "ordering"
    = (λ o, VStr (EnumerationOrder_value o)) <$> SearchQuery.ordering q
  ∧ b !! "includeContent"
    = (if SearchQuery.include_content q then Some (VBool true) else None)
  ∧ (∀ k, is_Some (b !! k) → k ∈ SearchQuery_wire_names)
  ∧ map_Forall (λ _ v, not_set v = false) b.
Proof.
  intros Hwt. cbv zeta.
  destruct x as [xid xcol xpath xdt xreq xnul xre xminv xmaxv xminl xmaxl xav xaet
                 xc xu].
  unfold FieldConstraint.well_typed in Hwt. cbn in Hwt.
  repeat match type of Hwt with
         | _ && _ = true => let H := fresh "Ht" in apply andb_prop in Hwt as [Hwt H]
         end.
  unfold FieldConstraint.to_dict. cbn.
  repeat split.
  - lookup_chain. reflexivity.
  - lookup_chain. rewrite truthy_not_set by (by destruct xdt).
    by destruct (not_set xdt).
  - lookup_chain. rewrite truthy_not_set by (by destruct xreq).
    by destruct (not_set xreq).
  - lookup_chain. by destruct xnul as [| [] | | | | |].
  - lookup_chain. rewrite truthy_not_set by (by destruct xre).
    by destruct (not_set xre).
  - lookup_chain. by destruct xminv.
  - lookup_chain. by destruct xmaxv.
  - lookup_chain. by destruct xminl.
  - lookup_chain. by destruct xmaxl.
  - lookup_chain. rewrite truthy_not_set by (by destruct xav).
    by destruct (not_set xav).
  - lookup_chain. rewrite truthy_not_set by (by destruct xaet).
    by destruct (not_set xaet).
  - unfold FieldConstraint_wire_names.
    repeat lazymatch goal with
           | |- ∀ k', is_Some (set_if _ _ _ _ !! k') → _ =>
               apply wire_names_set_if; [set_solver|]
           end.
    intros k [v Hv]. apply lookup_singleton_Some in Hv as [<- _]. set_solver.
  - repeat lazymatch goal with
           | |- map_Forall _ (set_if _ _ _ _) =>
               apply map_Forall_set_if;
               [intros Hc _; first [by apply truthy_set | by destruct xnul
                                   | by destruct xminv | by destruct xmaxv
                                   | by destruct xminl | by destruct xmaxl]|]
           end.
    apply map_Forall_singleton. done.
  - unfold SearchQuery.to_dict.
    destruct (SearchQuery.max_results q), (SearchQuery.skip q),
      (SearchQuery.ordering q); lookup_chain;
      by destruct (SearchQuery.filters q) as [[|? ?]|].
  - unfold SearchQuery.to_dict.
    destruct (SearchQuery.max_results q), (SearchQuery.skip q),
      (SearchQuery.ordering q); lookup_chain;
      by destruct (SearchQuery.labels q) as [[|? ?]|].
  - unfold SearchQuery.to_dict.
    destruct (SearchQuery.max_results q), (SearchQuery.skip q),
      (SearchQuery.ordering q); lookup_chain;
      destruct (SearchQuery.tags q) as [m|]; cbn; try done;
      by destruct (size m).
  - unfold SearchQuery.to_dict.
    destruct (SearchQuery.max_results q), (SearchQuery.skip q),
      (SearchQuery.ordering q); lookup_chain; done.
  - unfold SearchQuery.to_dict.
    destruct (SearchQuery.max_results q), (SearchQuery.skip q),
      (SearchQuery.ordering q); lookup_chain; done.
  - unfold SearchQuery.to_dict.
    destruct (SearchQuery.max_results q), (SearchQuery.skip q),
      (SearchQuery.ordering q); lookup_chain; done.
  - unfold SearchQuery.to_dict.
    destruct (SearchQuery.max_results q), (SearchQuery.skip q),
      (SearchQuery.ordering q); lookup_chain;
      by destruct (SearchQuery.include_content q).
  - unfold SearchQuery.to_dict, SearchQuery_wire_names.
    destruct (SearchQuery.max_results q), (SearchQuery.skip q),
      (SearchQuery.ordering q);
      repeat lazymatch goal with
             | |- ∀ k', is_Some (set_if _ _ _ _ !! k') → _ =>
                 apply wire_names_set_if; [set_solver|]
             | |- ∀ k', is_Some (<[_ := _]> _ !! k') → _ =>
                 apply wire_names_insert; [set_solver|]
             end;
      apply wire_names_empty.
  - unfold SearchQuery.to_dict.
    destruct (SearchQuery.max_results q), (SearchQuery.skip q),
      (SearchQuery.ordering q) as [[]|];
      repeat lazymatch goal with
             | |- map_Forall _ (set_if _ _ _ _) =>
                 apply map_Forall_set_if; [intros Hc|]
             | |- map_Forall _ (<[_ := _]> _) =>
                 apply map_Forall_insert_2; [done|]
             | |- map_Forall _ ∅ => apply map_Forall_empty
             end;
      try done.
    all: try (by destruct (SearchQuery.filters q) as [[|? ?]|]).
    all: try (by destruct (SearchQuery.labels q) as [[|? ?]|]).
    all: destruct (SearchQuery.tags q) as [m|]; cbn in *; try done;
      unfold of_str_map; cbn; rewrite size_of_str_map;
      by apply negb_true_iff in Hc.
Qed.

Lemma encode_omits_unset_fields_witness :
  FieldConstraint.well_typed sample_constraint = true
  ∧ FieldConstraint.to_dict sample_constraint !! "fieldPath" = Some (VStr "price")
  ∧ FieldConstraint.to_dict sample_constraint !! "regexPattern" = None
  ∧ FieldConstraint.to_dict sample_constraint !! "nullable" = Some (VBool false)
  ∧ FieldConstraint.to_dict sample_constraint !! "minValue" = Some (VInt 0)
  ∧ FieldConstraint.to_dict sample_constraint !! "allowedValues" = None
  ∧ SearchQuery.to_dict sample_query !! "labels" = None
  ∧ SearchQuery.to_dict sample_query !! "maxResults" = Some (VInt 0)
  ∧ SearchQuery.to_dict sample_query !! "includeContent" = None.
Proof.
  split; [reflexivity|].
  destruct (encode_omits_unset_fields sample_constraint sample_query eq_refl)
    as (Hpath & _ & _ & Hnul & Hre & Hmin & _ & _ & _ & Hav & _ & _ & _
        & _ & Hlabels & _ & Hmax & _ & _ & Hinc & _).
  split_conj; [exact Hpath | exact Hre | exact Hnul | exact Hmin | exact Hav
                | exact Hlabels | exact Hmax | exact Hinc].
Defined.

(** C2 (as stated) fails on [fieldPath]: the constraint whose fields all
    have their defaults is encoded with an explicit, empty [fieldPath]. *)
Lemma default_constraint_emits_empty_fieldPath :
  FieldConstraint.field_path FieldConstraint.defaults = VStr ""
  ∧ not_set (FieldConstraint.field_path FieldConstraint.defaults) = true
  ∧ FieldConstraint.to_dict FieldConstraint.defaults !! "fieldPath"
    = Some (VStr "")
  ∧ FieldConstraint.to_dict FieldConstraint.defaults = {[ "fieldPath" := VStr "" ]}.
Proof. repeat split; reflexivity. Qed.


(** C7 (as amended).  The encoding of a search filter always carries [field]
    and [condition], and carries [value] exactly when the filter has one,
    whatever the condition: a null test is encoded without [value] when it
    was built without one. *)
Theorem SearchFilter_to_dict_fields (f : SearchFilter.t) :
  SearchFilter.to_dict f !! "field" = Some (VStr (SearchFilter.field f))
  ∧ SearchFilter.to_dict f !! "condition"
    = Some (VStr (SearchCondition_value (SearchFilter.condition f)))
  ∧ SearchFilter.to_dict f !! "value" = VStr <$> SearchFilter.value_ f
  ∧ (SearchFilter.to_dict f !! "value" = None ↔ SearchFilter.value_ f = None).
Proof.
  unfold SearchFilter.to_dict.
  destruct (SearchFilter.value_ f) as [v|]; repeat split; lookup_chain; done.
Qed.

(** C7 (as stated) fails: a filter on [IsNull] that carries a value is
    encoded with it. *)
Lemma null_filter_keeps_value :
  SearchFilter.condition sample_null_filter = IS_NULL
  ∧ SearchFilter.to_dict sample_null_filter !! "value" = Some (VStr "x").
Proof. split; reflexivity. Qed.

(** ** Transport *)

(** Replace [upper] and [lower] of a literal ASCII text by the text they
    give. *)
Ltac case_literals :=
  repeat match goal with
         | |- context [upper ?s] => rewrite (upper_of_ascii s eq_refl)
         | |- context [lower ?s] => rewrite (lower_of_ascii s eq_refl)
         end;
  repeat match goal with
         | |- context [ascii_upper ?s] =>
             let r := eval vm_compute in (ascii_upper s) in
             progress change (ascii_upper s) with r
         | |- context [ascii_lower ?s] =>
             let r := eval vm_compute in (ascii_lower s) in
             progress change (ascii_lower s) with r
         end.

Lemma _request_log `{PyLib} (self : LatticeClient) (method path : string)
    (data params : option dict) (net : session) (log : list Request) :
  snd (_request self method path data params net log)
  = (log ++ [build_request self method path data params])%list.
Proof.
  unfold _request, bind, send, ret, raise, lift.
  destruct (net log _) as [response| | | |]; try reflexivity.
  destruct (String.eqb _ _); [reflexivity|].
  destruct (nonempty _); [|reflexivity].
  by destruct (resp_json response).
Qed.




Lemma bind_log_pure {A B} (m : io A) (k : A → io B) (net : session)
    (log : list Request) :
  (∀ a log', snd (k a net log') = log') →
  snd (bind m k net log) = snd (m net log).
Proof.
  intros Hk. unfold bind. destruct (m net log) as [[a|e] log']; cbn; [apply Hk|done].
Qed.

(** ** Health check *)

(** X24.  Where [health_check] raises, over every outcome of the call to
    the session and of [response.json()]: exactly when the session raises an
    exception that is not one of [requests], or answers with a body that is not
    empty and on which [response.json()] raises an exception that is neither a
    [json.JSONDecodeError] nor one of [requests], or returns something else
    than an object.  On every other outcome -- the exceptions of [requests]
    included -- it returns. *)
Lemma health_check_raises_iff `{PyLib} (self : LatticeClient) (net : session)
    (log : list Request) :
  raises (fst (health_check self net log))
  = escapes_health_check
      (net log (build_request self "GET" "/v1.0/health" None None)).
Proof.
  unfold health_check, except_LatticeException, _request, bind, send, ret, raise, lift.
  destruct (net log _) as [response| | | |]; try reflexivity.
  case_literals. cbn. destruct (nonempty _); [|reflexivity].
  destruct (resp_json response) as [[]| | |]; reflexivity.
Qed.

Lemma health_check_transport_fault `{PyLib} (self : LatticeClient)
    (net : session) (log : list Request) :
  is_fault (net log (build_request self "GET" "/v1.0/health" None None)) = true →
  fst (health_check self net log) = Ok (VBool false).
Proof.
  unfold health_check, except_LatticeException, _request, bind, send, ret, raise, lift.
  by destruct (net log _).
Qed.

(** C6 (the code departs from it).  A response to the health probe whose
    body is the JSON array [[]], or the JSON [null], makes [health_check]
    raise an [AttributeError], which is not a [LatticeException] and so is
    not turned into [False]; a refused connection is. *)
Theorem health_check_raises_on_non_object_json :
  run (@health_check sample_lib sample_client) (answers 200 "[]" (Some (VList [])))
  = (Raise AttributeError,
     [build_request sample_client "GET" "/v1.0/health" None None])
  ∧ run (@health_check sample_lib sample_client) (answers 200 "null" (Some VNone))
    = (Raise AttributeError,
       [build_request sample_client "GET" "/v1.0/health" None None])
  ∧ run (@health_check sample_lib sample_client) refused
    = (Ok (VBool false),
       [build_request sample_client "GET" "/v1.0/health" None None]).
Proof. split_conj; reflexivity. Qed.

(** ** Operation groups *)

Lemma from_dict_with_no_validation {A} (f : dict → A) (v : value) :
  is_validation_error (from_dict_with (λ d, Ok (f d)) v) = false.
Proof. by destruct v. Qed.

Lemma success_and_data_no_validation (response : option ResponseContext.t) :
  is_validation_error (success_and_data response) = false.
Proof.
  destruct response as [r|]; [|reflexivity].
  unfold success_and_data. cbn. by destruct (_ && _).
Qed.

Lemma _request_no_validation `{PyLib} (self : LatticeClient)
    (method path : string) (data params : option dict) (net : session)
    (log : list Request) :
  is_validation_error (fst (_request self method path data params net log)) = false.
Proof.
  unfold _request, bind, send, ret, raise, lift.
  destruct (net log _) as [response| | | |]; try reflexivity.
  destruct (String.eqb _ _); [reflexivity|].
  destruct (nonempty _); [|reflexivity].
  destruct (resp_json response) as [v| | |e]; [|reflexivity..].
  apply from_dict_with_no_validation.
Qed.

Lemma create_log `{PyLib} (client : LatticeClient)
    (name : string) (description documents_directory : option string)
    (labels : option (list string)) (tags : option (gmap string string))
    (schema_enforcement_mode : SchemaEnforcementMode)
    (field_constraints : option (list FieldConstraint.t))
    (indexing_mode : IndexingMode) (indexed_fields : option (list string))
    (net : session) (log : list Request) :
  snd (CollectionMethods.create client name description documents_directory
         labels tags schema_enforcement_mode field_constraints indexing_mode
         indexed_fields net log)
  = (log ++ [build_request client "PUT" "/v1.0/collections"
               (Some (CollectionMethods.create_data name description
                        documents_directory labels tags schema_enforcement_mode
                        field_constraints indexing_mode indexed_fields))
               None])%list.
Proof.
  unfold CollectionMethods.create. rewrite bind_log_pure; [apply _request_log|].
  intros response log'. rewrite bind_log_pure; [reflexivity|].
  by intros [d|] log''.
Qed.

(** C5 (as amended).  [Collections.create] validates nothing on the client:
    whatever the name, the empty one included, it sends exactly one request,
    a PUT on the collections path whose body carries that name, and it never
    raises a [LatticeValidationError]. *)
Theorem create_sends_without_validation `{PyLib} (client : LatticeClient)
    (name : string) (description documents_directory : option string)
    (labels : option (list string)) (tags : option (gmap string string))
    (schema_enforcement_mode : SchemaEnforcementMode)
    (field_constraints : option (list FieldConstraint.t))
    (indexing_mode : IndexingMode) (indexed_fields : option (list string))
    (net : session) :
  let body :=
    CollectionMethods.create_data name description documents_directory labels
      tags schema_enforcement_mode field_constraints indexing_mode
      indexed_fields in
  let out :=
    run (CollectionMethods.create client name description documents_directory
           labels tags schema_enforcement_mode field_constraints indexing_mode
           indexed_fields) net in
  snd out = [build_request client "PUT" "/v1.0/collections" (Some body) None]
  ∧ body !! "name" = Some (VStr name)
  ∧ is_validation_error (fst out) = false.
Proof.
  cbv zeta. split_conj.
  - unfold run. by rewrite create_log.
  - unfold CollectionMethods.create_data. lookup_chain. reflexivity.
  - unfold run, CollectionMethods.create, bind.
    pose proof (_request_no_validation client "PUT" "/v1.0/collections"
                  (Some (CollectionMethods.create_data name description
                           documents_directory labels tags
                           schema_enforcement_mode field_constraints
                           indexing_mode indexed_fields)) None net []) as Hreq.
    destruct (_request _ _ _ _ _ _ _) as [[response|e] log']; [|exact Hreq].
    unfold lift.
    pose proof (success_and_data_no_validation response) as Hsd.
    destruct (success_and_data response) as [[d|]|e]; [| reflexivity | exact Hsd].
    apply from_dict_with_no_validation.
Qed.

(** C5 (as stated) fails: the call with the empty name and every other
    argument at its default puts the request on the wire, and returns [None]
    on the rejection the server answers with. *)
Lemma create_empty_name_is_sent :
  run (@CollectionMethods.create sample_lib sample_client "" None None None None
         SEM_NONE None IM_ALL None) (answers 400 "" None)
  = (Ok None,
     [ {| req_method := "PUT";
          req_url := "http://localhost:8000/v1.0/collections";
          req_json := Some {[ "name" := VStr "" ]};
          req_params := None;
          req_timeout := 30 |} ]).
Proof. reflexivity. Qed.

(** C10.  [Collections.create] sends one PUT on the collections path; its
    body always has [name], has [schemaEnforcementMode] exactly when the mode
    is not [NONE], and has [indexingMode] exactly when the mode is not
    [ALL]; when present they hold the value of the enumeration member. *)
Theorem create_body_modes `{PyLib} (client : LatticeClient)
    (name : string) (description documents_directory : option string)
    (labels : option (list string)) (tags : option (gmap string string))
    (schema_enforcement_mode : SchemaEnforcementMode)
    (field_constraints : option (list FieldConstraint.t))
    (indexing_mode : IndexingMode) (indexed_fields : option (list string))
    (net : session) :
  ∃ body,
    snd (run (CollectionMethods.create client name description
                documents_directory labels tags schema_enforcement_mode
                field_constraints indexing_mode indexed_fields) net)
    = [ {| req_method := "PUT";
           req_url := base_url client +:+ "/v1.0/collections";
           req_json := Some body;
           req_params := None;
           req_timeout := timeout client |} ]
    ∧ body !! "name" = Some (VStr name)
    ∧ body !! "schemaEnforcementMode"
      = (if decide (schema_enforcement_mode = SEM_NONE) then None
         else Some (VStr (SchemaEnforcementMode_value schema_enforcement_mode)))
    ∧ body !! "indexingMode"
      = (if decide (indexing_mode = IM_ALL) then None
         else Some (VStr (IndexingMode_value indexing_mode))).
Proof.
  eexists. split_conj.
  - unfold run. rewrite create_log. reflexivity.
  - unfold CollectionMethods.create_data. lookup_chain. reflexivity.
  - unfold CollectionMethods.create_data. lookup_chain.
    by destruct schema_enforcement_mode.
  - unfold CollectionMethods.create_data. lookup_chain.
    by destruct indexing_mode.
Qed.

(** C9.  [Search.enumerate] is [Search.search]: on every session and log the
    two give the same result and the same log, which grows by the one POST on
    the search path of the collection, with the encoded query as body. *)
Theorem enumerate_is_search `{PyLib} (client : LatticeClient)
    (query : SearchQuery.t) (net : session) (log : list Request) :
  SearchMethods.enumerate client query net log
  = SearchMethods.search client query net log
  ∧ snd (SearchMethods.enumerate client query net log)
    = (log ++ [ {| req_method := "POST";
                   req_url := base_url client +:+ "/v1.0/collections/"
                              +:+ SearchQuery.collection_id query
                              +:+ "/documents/search";
                   req_json := Some (SearchQuery.to_dict query);
                   req_params := None;
                   req_timeout := timeout client |} ])%list.
Proof.
  split; [reflexivity|].
  unfold SearchMethods.enumerate, SearchMethods.search.
  rewrite bind_log_pure; [apply _request_log|].
  intros response log'. rewrite bind_log_pure; [reflexivity|].
  by intros [d|] log''.
Qed.

(** ** Timestamps *)

Lemma size_zero_lookup (e : dict) (k : string) : size e = 0 → e !! k = None.
Proof. intros ->%map_size_empty_iff. apply lookup_empty. Qed.

Lemma decode_timestamp_spec `{PyLib} (d : dict) :
  SearchResult.decode_timestamp d
  = Ok match d !! "timestamp" with
       | Some (VStr EmptyString) => None
       | Some (VStr s) => fromisoformat (rstrip "Z" s)
       | Some (VDict e) =>
           match e !! "utc" with
           | Some (VStr s) => fromisoformat (rstrip "Z" s)
           | _ => None
           end
       | _ => None
       end.
Proof.
  unfold SearchResult.decode_timestamp, get1, get, getitem.
  destruct (d !! "timestamp") as [[| | | | [|a s] | |e]|] eqn:Hd; cbn;
    try reflexivity.
  - by destruct b.
  - by destruct (Z.eqb z 0).
  - by destruct f.
  - by destruct l.
  - destruct (Nat.eqb (size e) 0) eqn:He; cbn.
    + apply Nat.eqb_eq in He. by rewrite (size_zero_lookup e "utc" He).
    + unfold get1, get. by destruct (e !! "utc") as [[]|].
Qed.

(** C8 (as amended).  [SearchResult.timestamp] accepts a bare ISO-8601 text
    and an object with a [utc] sub-field.  Every other timestamp field
    ([createdUtc], [lastUpdateUtc], [timestampUtc]) accepts the bare text only:
    an object there, like any value that is not a text, decodes to unset.  A
    text the parser rejects, an absent field and a malformed value decode to
    unset, and decoding a timestamp never raises. *)
Theorem timestamp_decoding `{PyLib} (d : dict) :
  let plain (k : string) : option datetime :=
    match d !! k with
    | Some (VStr s) => fromisoformat (rstrip "Z" s)
    | _ => None
    end in
  let enveloped : option datetime :=
    match d !! "timestamp" with
    | Some (VStr EmptyString) => None
    | Some (VStr s) => fromisoformat (rstrip "Z" s)
    | Some (VDict e) =>
        match e !! "utc" with
        | Some (VStr s) => fromisoformat (rstrip "Z" s)
        | _ => None
        end
    | _ => None
    end in
  Collection.created_utc (Collection.decode d) = plain "createdUtc"
  ∧ Collection.last_update_utc (Collection.decode d) = plain "lastUpdateUtc"
  ∧ Document.created_utc (Document.decode d) = plain "createdUtc"
  ∧ Document.last_update_utc (Document.decode d) = plain "lastUpdateUtc"
  ∧ Schema.created_utc (Schema.decode d) = plain "createdUtc"
  ∧ Schema.last_update_utc (Schema.decode d) = plain "lastUpdateUtc"
  ∧ SchemaElement.created_utc (SchemaElement.decode d) = plain "createdUtc"
  ∧ SchemaElement.last_update_utc (SchemaElement.decode d) = plain "lastUpdateUtc"
  ∧ FieldConstraint.created_utc (FieldConstraint.decode d) = plain "createdUtc"
  ∧ FieldConstraint.last_update_utc (FieldConstraint.decode d)
    = plain "lastUpdateUtc"
  ∧ IndexedField.created_utc (IndexedField.decode d) = plain "createdUtc"
  ∧ IndexedField.last_update_utc (IndexedField.decode d) = plain "lastUpdateUtc"
  ∧ ResponseContext.timestamp_utc (ResponseContext.decode d) = plain "timestampUtc"
  ∧ SearchResult.decode_timestamp d = Ok enveloped
  ∧ (∀ r, SearchResult.from_dict (VDict d) = Ok (Some r) →
          SearchResult.timestamp r = enveloped).
Proof.
  cbv zeta.
  assert (Hplain : ∀ k, _parse_datetime (get1 d k)
                        = match d !! k with
                          | Some (VStr s) => fromisoformat (rstrip "Z" s)
                          | _ => None
                          end).
  { intros k. unfold get1, get. by destruct (d !! k) as [[]|]. }
  split_conj; try apply Hplain.
  - apply decode_timestamp_spec.
  - intros r. cbn. unfold SearchResult.decode.
    rewrite decode_timestamp_spec.
    destruct (SearchResult.decode_documents d); cbn; [|discriminate].
    by intros [= <-].
Qed.

Lemma timestamp_decoding_witness :
  ∃ r, @SearchResult.from_dict sample_lib (VDict sample_timestamp_envelope)
       = Ok (Some r)
    ∧ SearchResult.timestamp r = Some sample_datetime.
Proof.
  eexists. split; [reflexivity|].
  exact (proj2 (proj2 (proj2 (proj2 (proj2 (proj2 (proj2 (proj2 (proj2 (proj2
          (proj2 (proj2 (proj2 (proj2
            (@timestamp_decoding sample_lib sample_timestamp_envelope)))))))))))))) _ eq_refl).
Defined.

(** C8 (as stated) fails outside [SearchResult]: the parser accepts the
    text, a search result decodes the envelope that wraps it, and a collection
    decodes the same envelope under [createdUtc] to unset. *)
Lemma createdUtc_envelope_decodes_unset :
  @_parse_datetime sample_lib (VStr "2024-01-15T10:30:00Z") = Some sample_datetime
  ∧ @SearchResult.decode_timestamp sample_lib sample_timestamp_envelope
    = Ok (Some sample_datetime)
  ∧ Collection.created_utc (@Collection.decode sample_lib sample_created_envelope)
    = None.
Proof. split_conj; reflexivity. Qed.

(** X25.  Where [SearchResult.from_dict] raises on a wire object: exactly
    when [documents] is present, truthy, and not a list of objects and
    nulls. *)
Lemma SearchResult_decode_raises_iff `{PyLib} (d : dict) :
  raises (SearchResult.decode d) = negb (documents_decodable d).
Proof.
  destruct (documents_decodable d) eqn:Hd.
  - destruct (decode_documents_ok d Hd) as (docs & Hdocs & _).
    destruct (decode_timestamp_ok d) as (ts & Hts & _).
    unfold SearchResult.decode. by rewrite Hdocs, Hts.
  - unfold documents_decodable in Hd. unfold SearchResult.decode.
    unfold SearchResult.decode_documents, get1, get, getitem.
    destruct (d !! "documents") as [v|]; [|discriminate]. cbn.
    apply orb_false_iff in Hd as [Ht%negb_false_iff Hl]. rewrite Ht. cbn.
    destruct v as [| | | | s | l |e]; try reflexivity; try discriminate.
    + destruct s; [discriminate|]. reflexivity.
    + cbn. by rewrite (rmap_from_dict_raises l Hl).
    + cbn in Ht. cbn.
      destruct (map_to_list e) as [|[k v] kvs] eqn:He; [|reflexivity].
      apply map_to_list_empty_iff in He as ->. by rewrite map_size_empty in Ht.
Qed.

(** * Further properties of the code *)

(** ** Texts: trailing characters and letter case *)

Lemma rstrip_snoc (c : ascii) (s : string) :
  rstrip c (s +:+ String c EmptyString) = rstrip c s.
Proof.
  induction s as [|a s IH].
  - change (rstrip c (String c EmptyString) = EmptyString).
    cbn [rstrip]. by rewrite Ascii.eqb_refl.
  - change (rstrip c (String a (s +:+ String c EmptyString))
            = rstrip c (String a s)).
    cbn [rstrip]. by rewrite IH.
Qed.

Lemma rstrip_no_trailing (c : ascii) (s s' : string) :
  rstrip c s ≠ s' +:+ String c EmptyString.
Proof.
  revert s'. induction s as [|a s IH]; intros s'; cbn [rstrip].
  - by destruct s'.
  - destruct (rstrip c s) as [|b r] eqn:Hr.
    + destruct (Ascii.eqb a c) eqn:Hac; [by destruct s'|].
      destruct s' as [|a' s'']; cbn.
      * intros [= ->]. by rewrite Ascii.eqb_refl in Hac.
      * intros [= _ Habs]. by destruct s''.
    + destruct s' as [|a' s'']; cbn; [done|].
      intros [= _ Habs]. by apply (IH s'').
Qed.

(** X1.  The client drops the trailing slashes of its base address: the
    stored address never ends with a slash, and one more trailing slash on the
    argument gives the same client. *)
Theorem new_client_trailing_slash (base : string) (timeout_ : Z) :
  new_client (base +:+ "/") timeout_ = new_client base timeout_
  ∧ ∀ s', base_url (new_client base timeout_) ≠ s' +:+ "/".
Proof.
  unfold new_client. cbn. split.
  - by rewrite rstrip_snoc.
  - apply rstrip_no_trailing.
Qed.

(** X2.  A timestamp text is parsed without its trailing [Z]s: adding a [Z]
    at the end of the text changes nothing, and the parser is never handed a
    text that ends with [Z]. *)
Theorem _parse_datetime_trailing_Z `{PyLib} (s : string) :
  _parse_datetime (VStr (s +:+ "Z")) = _parse_datetime (VStr s)
  ∧ _parse_datetime (VStr s) = fromisoformat (rstrip "Z" s)
  ∧ ∀ s', rstrip "Z" s ≠ s' +:+ "Z".
Proof.
  split_conj.
  - cbn. by rewrite rstrip_snoc.
  - reflexivity.
  - apply rstrip_no_trailing.
Qed.

(** X3.  The two modes of a collection decode whatever the letter case of
    the wire text: a text that [str.lower] sends where it sends the value of a
    member decodes to that member. *)
Theorem parse_modes_ignore_case `{PyLib} (s : string) :
  (∀ m, lower s = lower (SchemaEnforcementMode_value m) →
        _parse_schema_enforcement_mode (VStr s) = m)
  ∧ (∀ m, lower s = lower (IndexingMode_value m) →
          _parse_indexing_mode (VStr s) = m).
Proof.
  split.
  - intros m Hm. cbn. rewrite Hm. destruct m; cbn; by case_literals.
  - intros m Hm. cbn. rewrite Hm. destruct m; cbn; by case_literals.
Qed.

Lemma parse_modes_ignore_case_witness :
  @_parse_schema_enforcement_mode sample_lib (VStr "STRICT") = SEM_STRICT
  ∧ @_parse_indexing_mode sample_lib (VStr "selective") = IM_SELECTIVE.
Proof.
  split.
  - exact (proj1 (@parse_modes_ignore_case sample_lib "STRICT") SEM_STRICT eq_refl).
  - exact (proj2 (@parse_modes_ignore_case sample_lib "selective")
             IM_SELECTIVE eq_refl).
Defined.

(** X4.  Each mode falls back to the default of its own enumeration: a
    value that is not a text, or a text that [str.lower] sends to none of
    ["none"], ["strict"], ["flexible"], ["partial"], decodes to the enforcement
    mode [NONE]; a value that is not a text, or a text that [str.lower] sends
    to none of ["all"], ["selective"], ["none"], decodes to the indexing mode
    [ALL].  So ["All"] is the enforcement mode [NONE] and ["Strict"] the
    indexing mode [ALL]. *)
Theorem parse_modes_fallback `{PyLib} (v : value) :
  ((∀ s, v = VStr s →
         lower s ≠ "none" ∧ lower s ≠ "strict" ∧ lower s ≠ "flexible"
         ∧ lower s ≠ "partial") →
   _parse_schema_enforcement_mode v = SEM_NONE)
  ∧ ((∀ s, v = VStr s →
           lower s ≠ "all" ∧ lower s ≠ "selective" ∧ lower s ≠ "none") →
     _parse_indexing_mode v = IM_ALL).
Proof.
  split; intros Hv; destruct v as [| | | | s | |]; try done; cbn.
  - destruct (Hv s eq_refl) as (H0 & H1 & H2 & H3).
    apply String.eqb_neq in H0, H1, H2, H3. by rewrite H0, H1, H2, H3.
  - destruct (Hv s eq_refl) as (H0 & H1 & H2).
    apply String.eqb_neq in H0, H1, H2. by rewrite H0, H1, H2.
Qed.

Lemma parse_modes_fallback_witness :
  @_parse_schema_enforcement_mode sample_lib (VStr "All") = SEM_NONE
  ∧ @_parse_indexing_mode sample_lib (VStr "Strict") = IM_ALL
  ∧ @_parse_indexing_mode sample_lib (VInt 1) = IM_ALL.
Proof.
  split_conj.
  - apply (proj1 (@parse_modes_fallback sample_lib (VStr "All"))).
    intros s [= <-]. by vm_compute.
  - apply (proj2 (@parse_modes_fallback sample_lib (VStr "Strict"))).
    intros s [= <-]. by vm_compute.
  - apply (proj2 (@parse_modes_fallback sample_lib (VInt 1))).
    intros s Hs. discriminate.
Defined.

(** ** Decoding: lists, maps and pages *)

Lemma py_or_get (d : dict) (k : string) (empty : value) :
  empty ≠ VNone →
  py_or (get d k empty) empty
  = match d !! k with
    | Some w => if truthy w then w else empty
    | None => empty
    end
  ∧ py_or (get d k empty) empty ≠ VNone.
Proof.
  intros He. unfold py_or, get. destruct (d !! k) as [w|]; cbn.
  - destruct (truthy w) eqn:Hw; split; try done. intros ->. discriminate.
  - by destruct (truthy empty).
Qed.

(** X5.  The list and map fields of a decoded entity are the wire value
    when the wire has one that is truthy, and the empty list or the empty map
    otherwise -- for an absent field, a null, an empty list or map, a zero, an
    empty text; in particular they are never [None]. *)
Theorem decoded_collections_never_none `{PyLib} (d : dict) :
  let kept_or (empty : value) (k : string) (v : value) :=
    v = match d !! k with
        | Some w => if truthy w then w else empty
        | None => empty
        end
    ∧ v ≠ VNone in
  kept_or (VList []) "labels" (Collection.labels (Collection.decode d))
  ∧ kept_or (VDict ∅) "tags" (Collection.tags (Collection.decode d))
  ∧ kept_or (VList []) "labels" (Document.labels (Document.decode d))
  ∧ kept_or (VDict ∅) "tags" (Document.tags (Document.decode d))
  ∧ kept_or (VList []) "indexesCreated"
      (IndexRebuildResult.indexes_created (IndexRebuildResult.decode d))
  ∧ kept_or (VList []) "indexesDropped"
      (IndexRebuildResult.indexes_dropped (IndexRebuildResult.decode d))
  ∧ kept_or (VList []) "errors"
      (IndexRebuildResult.errors (IndexRebuildResult.decode d))
  ∧ kept_or (VDict ∅) "headers"
      (ResponseContext.headers (ResponseContext.decode d)).
Proof.
  cbv beta zeta.
  repeat lazymatch goal with
         | |- (_ ∧ _) ∧ _ => split
         end;
    by apply py_or_get.
Qed.

Lemma rmap_from_dict_dicts `{PyLib} (ds : list dict) :
  rmap Document.from_dict (VDict <$> ds)
  = Ok ((λ x, Some (Document.decode x)) <$> ds).
Proof.
  induction ds as [|x ds IH]; [reflexivity|].
  cbn. cbn in IH. by rewrite IH.
Qed.

(** X6.  A search result whose [documents] is a list of objects decodes
    without raising, to the documents of those objects, one for one and in the
    order of the wire. *)
Theorem SearchResult_documents_in_order `{PyLib} (d : dict) (ds : list dict) :
  d !! "documents" = Some (VList (VDict <$> ds)) →
  ∃ r, SearchResult.from_dict (VDict d) = Ok (Some r)
    ∧ SearchResult.documents r = (λ x, Some (Document.decode x)) <$> ds
    ∧ length (SearchResult.documents r) = length ds.
Proof.
  intros Hd.
  destruct (decode_timestamp_ok d) as (ts & Hts & _).
  assert (Hdocs : SearchResult.decode_documents d
                  = Ok ((λ x, Some (Document.decode x)) <$> ds)).
  { unfold SearchResult.decode_documents, get1, get, getitem. rewrite Hd. cbn.
    destruct ds as [|x ds]; [reflexivity|].
    cbn. pose proof (rmap_from_dict_dicts ds) as Hr. cbn in Hr. by rewrite Hr. }
  eexists. split_conj.
  - cbn. unfold SearchResult.decode. rewrite Hdocs, Hts. reflexivity.
  - reflexivity.
  - cbn. by rewrite length_fmap.
Qed.

Lemma SearchResult_documents_in_order_witness :
  ∃ r, @SearchResult.from_dict sample_lib (VDict sample_result_wire) = Ok (Some r)
    ∧ length (SearchResult.documents r) = 2.
Proof.
  destruct (@SearchResult_documents_in_order sample_lib sample_result_wire
              sample_page eq_refl) as (r & Hr & _ & Hlen).
  exists r. split; [exact Hr | exact Hlen].
Defined.

(** ** Encoding: what the wire form keeps *)

Lemma decode_to_dict `{PyLib} (x : FieldConstraint.t) :
  FieldConstraint.decode (FieldConstraint.to_dict x)
  = {| FieldConstraint.id := VStr "";
       FieldConstraint.collection_id := VStr "";
       FieldConstraint.field_path := FieldConstraint.field_path x;
       FieldConstraint.data_type :=
         if truthy (FieldConstraint.data_type x)
         then FieldConstraint.data_type x else VNone;
       FieldConstraint.required :=
         if truthy (FieldConstraint.required x)
         then FieldConstraint.required x else VBool false;
       FieldConstraint.nullable :=
         if truthy (FieldConstraint.nullable x)
         then VBool true else FieldConstraint.nullable x;
       FieldConstraint.regex_pattern :=
         if truthy (FieldConstraint.regex_pattern x)
         then FieldConstraint.regex_pattern x else VNone;
       FieldConstraint.min_value := FieldConstraint.min_value x;
       FieldConstraint.max_value := FieldConstraint.max_value x;
       FieldConstraint.min_length := FieldConstraint.min_length x;
       FieldConstraint.max_length := FieldConstraint.max_length x;
       FieldConstraint.allowed_values :=
         if truthy (FieldConstraint.allowed_values x)
         then FieldConstraint.allowed_values x else VNone;
       FieldConstraint.array_element_type :=
         if truthy (FieldConstraint.array_element_type x)
         then FieldConstraint.array_element_type x else VNone;
       FieldConstraint.created_utc := None;
       FieldConstraint.last_update_utc := None |}.
Proof.
  destruct x as [xid xcol xpath xdt xreq xnul xre xminv xmaxv xminl xmaxl xav xaet
                 xc xu].
  unfold FieldConstraint.to_dict, FieldConstraint.decode, get1, get. cbn.
  f_equal; lookup_chain; cbn; try reflexivity.
  - by destruct (truthy xdt).
  - by destruct (truthy xreq).
  - by destruct (truthy xnul).
  - by destruct (truthy xre).
  - by destruct xminv.
  - by destruct xmaxv.
  - by destruct xminl.
  - by destruct xmaxl.
  - by destruct (truthy xav).
  - by destruct (truthy xaet).
Qed.

Lemma set_if_truthy_norm (v e : value) (k : string) (d : dict) :
  truthy e = false →
  set_if (truthy (if truthy v then v else e)) k (if truthy v then v else e) d
  = set_if (truthy v) k v d.
Proof.
  intros He. destruct (truthy v) eqn:Hv; [by rewrite Hv | by rewrite He].
Qed.

Lemma set_if_falsy_norm (v : value) (k : string) (d : dict) :
  set_if (negb (truthy (if truthy v then VBool true else v))) k
    (if truthy v then VBool true else v) d
  = set_if (negb (truthy v)) k v d.
Proof. destruct (truthy v) eqn:Hv; [reflexivity | by rewrite Hv]. Qed.

(** X7.  Encoding after a round trip gives the same wire object: what
    decoding the encoding loses (the fields that are never sent, an empty text
    or list that becomes [None]) the encoder does not send either. *)
Theorem FieldConstraint_reencode `{PyLib} (x : FieldConstraint.t) :
  FieldConstraint.to_dict (FieldConstraint.decode (FieldConstraint.to_dict x))
  = FieldConstraint.to_dict x.
Proof.
  rewrite decode_to_dict. unfold FieldConstraint.to_dict. cbn.
  rewrite !set_if_truthy_norm by reflexivity. by rewrite set_if_falsy_norm.
Qed.

Lemma is_empty_str_eq (v : value) : is_empty_str v = true ↔ v = VStr "".
Proof. split; [by destruct v as [| | | | [] | |] | by intros ->]. Qed.

Lemma kept_if_truthy (v e : value) (is_e : value → bool) :
  (∀ w, is_e w = true ↔ w = e) →
  (if truthy v then v else e) = v ↔ is_e v || truthy v = true.
Proof.
  intros Hise. destruct (truthy v) eqn:Hv.
  - rewrite orb_true_r. done.
  - rewrite orb_false_r, Hise. split; done.
Qed.

Lemma is_None_eq (w : value) : is_None w = true ↔ w = VNone.
Proof. split; [by destruct w | by intros ->]. Qed.
Lemma is_False_eq (w : value) : is_False w = true ↔ w = VBool false.
Proof. split; [by destruct w as [| [] | | | | |] | by intros ->]. Qed.
Lemma is_True_eq (w : value) : is_True w = true ↔ w = VBool true.
Proof. split; [by destruct w as [| [] | | | | |] | by intros ->]. Qed.

(** X8.  The round trip through the wire gives back the very constraint
    exactly when the constraint is canonical: [id] and [collection_id] are
    empty, the timestamps unset, [required] and [nullable] are [False] and
    [True] when they are falsy and truthy, and no optional text or list is
    falsy without being [None]. *)
Theorem FieldConstraint_roundtrip_exact `{PyLib} (x : FieldConstraint.t) :
  FieldConstraint.from_dict (VDict (FieldConstraint.to_dict x)) = Ok (Some x)
  ↔ canonical x = true.
Proof.
  change (FieldConstraint.from_dict (VDict (FieldConstraint.to_dict x)))
    with (Ok (Some (FieldConstraint.decode (FieldConstraint.to_dict x)))).
  rewrite decode_to_dict.
  destruct x as [xid xcol xpath xdt xreq xnul xre xminv xmaxv xminl xmaxl xav xaet
                 xc xu].
  unfold canonical. cbn.
  rewrite !andb_true_iff, !bool_decide_eq_true, !is_empty_str_eq.
  rewrite <- !(kept_if_truthy _ VNone is_None is_None_eq).
  rewrite <- (kept_if_truthy xreq (VBool false) is_False is_False_eq).
  assert (Hnul : is_True xnul || negb (truthy xnul) = true
                 ↔ (if truthy xnul then VBool true else xnul) = xnul).
  { destruct (truthy xnul) eqn:Hn.
    - rewrite orb_false_r, is_True_eq. split; done.
    - rewrite orb_true_r. done. }
  rewrite Hnul. split.
  - intros [= -> -> Hdt Hreq Hn Hre Hav Haet -> ->]. done.
  - intros (((((((((-> & ->) & ->) & ->) & Hdt) & Hreq) & Hn) & Hre) & Hav) & Haet).
    by rewrite Hdt, Hreq, Hn, Hre, Hav, Haet.
Qed.

Lemma FieldConstraint_roundtrip_exact_witness :
  @FieldConstraint.from_dict sample_lib
    (VDict (FieldConstraint.to_dict sample_canonical)) = Ok (Some sample_canonical)
  ∧ @FieldConstraint.from_dict sample_lib
      (VDict (FieldConstraint.to_dict sample_constraint)) ≠ Ok (Some sample_constraint).
Proof.
  split.
  - by apply (proj2 (@FieldConstraint_roundtrip_exact sample_lib sample_canonical)).
  - intros Habs.
    by apply (proj1 (@FieldConstraint_roundtrip_exact sample_lib sample_constraint))
      in Habs.
Defined.

Lemma SearchCondition_value_inj (c c' : SearchCondition) :
  SearchCondition_value c = SearchCondition_value c' → c = c'.
Proof. by destruct c, c'. Qed.

(** X9.  The encoding of a search filter determines the filter: two filters
    with the same wire object are the same filter. *)
Theorem SearchFilter_to_dict_inj (f g : SearchFilter.t) :
  SearchFilter.to_dict f = SearchFilter.to_dict g → f = g.
Proof.
  intros Heq.
  assert (Hk : ∀ k, SearchFilter.to_dict f !! k = SearchFilter.to_dict g !! k)
    by (intros k; by rewrite Heq).
  pose proof (Hk "field") as Hfield. pose proof (Hk "condition") as Hcond.
  pose proof (Hk "value") as Hval. clear Hk Heq.
  destruct f as [ff fc fv], g as [gf gc gv].
  unfold SearchFilter.to_dict in *. cbn in *.
  destruct fv, gv; revert Hfield Hcond Hval; lookup_chain;
    intros [= ->] [= ->%SearchCondition_value_inj]; try (intros [= ->]);
    done.
Qed.

Lemma SearchFilter_to_dict_inj_witness :
  sample_null_filter
  = {| SearchFilter.field := "Name"; SearchFilter.condition := IS_NULL;
       SearchFilter.value_ := Some "x" |}.
Proof.
  apply (SearchFilter_to_dict_inj sample_null_filter
           {| SearchFilter.field := "Name"; SearchFilter.condition := IS_NULL;
              SearchFilter.value_ := Some "x" |}).
  reflexivity.
Defined.

Lemma nonempty_list_false {A} (o : option (list A)) :
  SearchQuery.nonempty_list o = false ↔ o = None ∨ o = Some [].
Proof.
  destruct o as [[|? ?]|]; cbn; split; try done; auto.
  by intros [|].
Qed.

Lemma nonempty_map_false (o : option (gmap string string)) :
  SearchQuery.nonempty_map o = false ↔ o = None ∨ o = Some ∅.
Proof.
  destruct o as [m|]; cbn; [|split; auto].
  rewrite negb_false_iff, Nat.eqb_eq, map_size_empty_iff.
  split; [intros ->; by right | by intros [|[= ->]]].
Qed.

(** X10.  The body of a search query is the empty object exactly when the
    query sets nothing but its collection: no filter, label or tag ([None] or
    empty), no page bound, no ordering, and no content flag. *)
Theorem SearchQuery_to_dict_empty (q : SearchQuery.t) :
  SearchQuery.to_dict q = ∅
  ↔ (SearchQuery.filters q = None ∨ SearchQuery.filters q = Some [])
    ∧ (SearchQuery.labels q = None ∨ SearchQuery.labels q = Some [])
    ∧ (SearchQuery.tags q = None ∨ SearchQuery.tags q = Some ∅)
    ∧ SearchQuery.max_results q = None
    ∧ SearchQuery.skip q = None
    ∧ SearchQuery.ordering q = None
    ∧ SearchQuery.include_content q = false.
Proof.
  rewrite <- !nonempty_list_false, <- nonempty_map_false.
  destruct q as [qc qf ql qt qm qs qo qi]. unfold SearchQuery.to_dict. cbn.
  split.
  - intros Heq.
    match type of Heq with
    | ?w = ∅ =>
        assert (Hk : ∀ k, w !! k = None)
          by (intros k; rewrite Heq; apply lookup_empty)
    end.
    pose proof (Hk "filters") as H1. pose proof (Hk "labels") as H2.
    pose proof (Hk "tags") as H3. pose proof (Hk "maxResults") as H4.
    pose proof (Hk "skip") as H5. pose proof (Hk "ordering") as H6.
    pose proof (Hk "includeContent") as H7. clear Hk Heq.
    destruct qm, qs, qo; revert H1 H2 H3 H4 H5 H6 H7; lookup_chain; try done.
    destruct (SearchQuery.nonempty_list qf), (SearchQuery.nonempty_list ql),
      (SearchQuery.nonempty_map qt), qi; done.
  - intros (-> & -> & -> & -> & -> & -> & ->). reflexivity.
Qed.

(** ** Operations: the requests they send *)

Lemma decode_one_log {A} (from_dict : value → result (option A))
    (response : option ResponseContext.t) (net : session) (log : list Request) :
  snd (decode_one from_dict response net log) = log.
Proof.
  unfold decode_one. rewrite bind_log_pure; [reflexivity|].
  by intros [d|] log'.
Qed.

Lemma decode_list_log {A} (from_dict : value → result (option A))
    (response : option ResponseContext.t) (net : session) (log : list Request) :
  snd (decode_list from_dict response net log) = log.
Proof.
  unfold decode_list. rewrite bind_log_pure; [reflexivity|].
  by intros [d|] log'.
Qed.

Lemma decode_field_list_log {A} (from_dict : value → result (option A))
    (k : string) (response : option ResponseContext.t) (net : session)
    (log : list Request) :
  snd ((let! payload := lift (success_and_data response) in
        match payload with
        | Some d =>
            let! items := lift (attr_get d k (VList [])) in
            if truthy items then lift (from_dict_each from_dict items) else ret []
        | None => ret []
        end) net log) = log.
Proof.
  rewrite bind_log_pure; [reflexivity|].
  intros [d|] log'; [|reflexivity].
  rewrite bind_log_pure; [reflexivity|].
  intros items log''. by destruct (truthy items).
Qed.

Lemma request_then_log `{PyLib} {B} (client : LatticeClient)
    (method path : string) (data params : option dict)
    (k : option ResponseContext.t → io B) (net : session) :
  (∀ response log, snd (k response net log) = log) →
  snd (run (bind (_request client method path data params) k) net)
  = [build_request client method path data params].
Proof.
  intros Hk. unfold run. rewrite bind_log_pure by (intros; apply Hk).
  by rewrite _request_log.
Qed.

Lemma str_lower_bool_eq `{PyLib} (b : bool) :
  str_lower_bool b = if b then "true" else "false".
Proof. unfold str_lower_bool. destruct b; cbn [py_str_bool]; by case_literals. Qed.

Ltac one_request :=
  apply request_then_log; intros;
  first [ apply decode_one_log | apply decode_list_log
        | apply decode_field_list_log | reflexivity ].

(** X11.  Every operation below hands exactly one request to the session,
    whatever the session answers: the method, the path under the base
    address, the body and the query parameters are the ones listed, and the
    timeout is the client's. *)
Theorem operations_send_one_request `{PyLib} (client : LatticeClient)
    (net : session) (cid did sid sql : string) (mode : SchemaEnforcementMode)
    (constraints : option (list FieldConstraint.t)) (imode : IndexingMode)
    (fields : option (list string)) (rebuild drop : bool) (content : value)
    (name : option string) (labels : option (list string))
    (tags : option (gmap string string)) (ic il it : bool) :
  let one (A : Type) (m : io A) (method path : string) (data params : option dict) :=
    snd (run m net) = [build_request client method path data params] in
  one _ (health_check client) "GET" "/v1.0/health" None None
  ∧ one _ (CollectionMethods.read_all client) "GET" "/v1.0/collections" None None
  ∧ one _ (CollectionMethods.read_by_id client cid)
      "GET" ("/v1.0/collections/" +:+ cid) None None
  ∧ one _ (CollectionMethods.exists_ client cid)
      "HEAD" ("/v1.0/collections/" +:+ cid) None None
  ∧ one _ (CollectionMethods.delete client cid)
      "DELETE" ("/v1.0/collections/" +:+ cid) None None
  ∧ one _ (CollectionMethods.get_constraints client cid)
      "GET" ("/v1.0/collections/" +:+ cid +:+ "/constraints") None None
  ∧ one _ (CollectionMethods.update_constraints client cid mode constraints)
      "PUT" ("/v1.0/collections/" +:+ cid +:+ "/constraints")
      (Some (CollectionMethods.update_constraints_data mode constraints)) None
  ∧ one _ (CollectionMethods.get_indexed_fields client cid)
      "GET" ("/v1.0/collections/" +:+ cid +:+ "/indexing") None None
  ∧ one _ (CollectionMethods.update_indexing client cid imode fields rebuild)
      "PUT" ("/v1.0/collections/" +:+ cid +:+ "/indexing")
      (Some (CollectionMethods.update_indexing_data imode fields rebuild)) None
  ∧ one _ (CollectionMethods.rebuild_indexes client cid drop)
      "POST" ("/v1.0/collections/" +:+ cid +:+ "/indexes/rebuild")
      (Some {[ "dropUnusedIndexes" := VBool drop ]}) None
  ∧ one _ (DocumentMethods.ingest client cid content name labels tags)
      "PUT" ("/v1.0/collections/" +:+ cid +:+ "/documents")
      (Some (DocumentMethods.ingest_data content name labels tags)) None
  ∧ one _ (DocumentMethods.read_all_in_collection client cid ic il it)
      "GET" ("/v1.0/collections/" +:+ cid +:+ "/documents") None
      (Some {[ "includeContent" := VStr (if ic then "true" else "false");
               "includeLabels" := VStr (if il then "true" else "false");
               "includeTags" := VStr (if it then "true" else "false") ]})
  ∧ one _ (DocumentMethods.exists_ client cid did)
      "HEAD" ("/v1.0/collections/" +:+ cid +:+ "/documents/" +:+ did) None None
  ∧ one _ (DocumentMethods.delete client cid did)
      "DELETE" ("/v1.0/collections/" +:+ cid +:+ "/documents/" +:+ did) None None
  ∧ one _ (SearchMethods.search_by_sql client cid sql)
      "POST" ("/v1.0/collections/" +:+ cid +:+ "/documents/search")
      (Some {[ "sqlExpression" := VStr sql ]}) None
  ∧ one _ (SchemaMethods.read_all client) "GET" "/v1.0/schemas" None None
  ∧ one _ (SchemaMethods.read_by_id client sid)
      "GET" ("/v1.0/schemas/" +:+ sid) None None
  ∧ one _ (SchemaMethods.get_elements client sid)
      "GET" ("/v1.0/schemas/" +:+ sid +:+ "/elements") None None
  ∧ one _ (IndexMethods.get_mappings client) "GET" "/v1.0/tables" None None.
Proof.
  cbv zeta. split_conj; try one_request.
  - unfold health_check, except_LatticeException, run.
    pose proof (_request_log client "GET" "/v1.0/health" None None net []) as Hlog.
    unfold bind. destruct (_request _ _ _ _ _ _ _) as [[response|e] log'];
      cbn in *; subst log'.
    + unfold lift. destruct (attr_success response) as [?|e]; [done|].
      by destruct (is_LatticeException e).
    + by destruct (is_LatticeException e).
  - replace (Some _) with (Some (DocumentMethods.read_params ic il it))
      by (unfold DocumentMethods.read_params; by rewrite !str_lower_bool_eq).
    one_request.
Qed.

(** ** Operations: transport faults *)





(** ** Operations: what they make of a response *)

Lemma nonempty_ne (s : string) : s ≠ "" → nonempty s = true.
Proof. by destruct s. Qed.

Lemma truthy_VDict (d : dict) : d ≠ ∅ → truthy (VDict d) = true.
Proof.
  intros Hd. cbn. apply negb_true_iff, Nat.eqb_neq.
  by rewrite map_size_empty_iff.
Qed.

Lemma truthy_VStr (s : string) : s ≠ "" → truthy (VStr s) = true.
Proof. by destruct s. Qed.

(** The result of [_request] on a session that answers with [response]. *)
Lemma _request_responded `{PyLib} (client : LatticeClient)
    (method path : string) (data params : option dict) (net : session)
    (log : list Request) (response : Response) :
  (∀ log r, net log r = Responded response) →
  fst (_request client method path data params net log)
  = if String.eqb (upper method) "HEAD" then
      Ok (Some (ResponseContext.make (Z.eqb (resp_status_code response) 200)
                  (resp_status_code response) VNone (resp_headers response)))
    else if nonempty (resp_content response) then
      match resp_json response with
      | Decoded v => ResponseContext.from_dict v
      | NotJson =>
          Ok (Some (ResponseContext.make (Z.ltb (resp_status_code response) 400)
                      (resp_status_code response) (VStr (resp_text response))
                      (resp_headers response)))
      | JsonRequestException message =>
          Raise (LatticeException ("Request failed: " +:+ message))
      | JsonRaised e => Raise e
      end
    else
      Ok (Some (ResponseContext.make (Z.ltb (resp_status_code response) 400)
                  (resp_status_code response) VNone (resp_headers response))).
Proof.
  intros Hnet. unfold _request, bind, send, ret, raise, lift. rewrite Hnet.
  destruct (String.eqb _ _); [reflexivity|].
  destruct (nonempty _); [|reflexivity].
  by destruct (resp_json response).
Qed.

Lemma run_request_then `{PyLib} {B} (client : LatticeClient)
    (method path : string) (data params : option dict)
    (k : option ResponseContext.t → io B) (net : session) :
  fst (run (bind (_request client method path data params) k) net)
  = match fst (_request client method path data params net []) with
    | Ok response =>
        fst (k response net (snd (_request client method path data params net [])))
    | Raise e => Raise e
    end.
Proof.
  unfold run, bind. by destruct (_request _ _ _ _ _ _ _) as [[response|e] log'].
Qed.

(** Evaluate an operation on a session that always answers [response]. *)
Ltac on_response Hnet :=
  rewrite run_request_then, (_request_responded _ _ _ _ _ _ _ _ Hnet);
  case_literals;
  match goal with
  | |- context [String.eqb ?m "HEAD"] =>
      let b := eval vm_compute in (String.eqb m "HEAD") in
      change (String.eqb m "HEAD") with b
  end;
  cbv beta iota.

(** X13.  [exists] is a HEAD probe and looks at the status only: whatever
    the body, a collection or a document exists exactly when the status of the
    response is 200. *)
Theorem exists_is_status_200 `{PyLib} (client : LatticeClient) (net : session)
    (cid did : string) (response : Response) :
  (∀ log r, net log r = Responded response) →
  fst (run (CollectionMethods.exists_ client cid) net)
  = Ok (VBool (Z.eqb (resp_status_code response) 200))
  ∧ fst (run (DocumentMethods.exists_ client cid did) net)
    = Ok (VBool (Z.eqb (resp_status_code response) 200)).
Proof.
  intros Hnet. split.
  - unfold CollectionMethods.exists_. on_response Hnet. reflexivity.
  - unfold DocumentMethods.exists_. on_response Hnet. reflexivity.
Qed.

Lemma exists_is_status_200_witness :
  fst (run (@CollectionMethods.exists_ sample_lib sample_client "col_1")
         (answers 204 "" None)) = Ok (VBool false)
  ∧ fst (run (@DocumentMethods.exists_ sample_lib sample_client "col_1" "doc_1")
           (answers 200 "ignored" None)) = Ok (VBool true).
Proof.
  split.
  - exact (proj1 (@exists_is_status_200 sample_lib sample_client
                    (answers 204 "" None) "col_1" "doc_1" _ (λ _ _, eq_refl))).
  - exact (proj2 (@exists_is_status_200 sample_lib sample_client
                    (answers 200 "ignored" None) "col_1" "doc_1" _ (λ _ _, eq_refl))).
Defined.

(** X14.  The operations that return a boolean -- the two deletions and the
    two updates.  On a body that is empty, or that [response.json()] rejects
    with a [json.JSONDecodeError], they return whether the status is below
    400.  On a body that is not empty: when [response.json()] returns an
    object they return its [success] as it is ([False] when there is none),
    whatever the status; when it raises another exception they raise, a
    [LatticeException] for an exception of [requests], the exception itself
    otherwise. *)
Theorem mutations_report_success `{PyLib} (client : LatticeClient)
    (net : session) (cid did : string) (mode : SchemaEnforcementMode)
    (constraints : option (list FieldConstraint.t)) (imode : IndexingMode)
    (fields : option (list string)) (rebuild : bool) (response : Response) :
  (∀ log r, net log r = Responded response) →
  let results :=
    [ fst (run (CollectionMethods.delete client cid) net);
      fst (run (DocumentMethods.delete client cid did) net);
      fst (run (CollectionMethods.update_constraints client cid mode constraints) net);
      fst (run (CollectionMethods.update_indexing client cid imode fields rebuild)
             net) ] in
  (resp_content response = "" ∨ resp_json response = NotJson →
   Forall (λ r, r = Ok (VBool (Z.ltb (resp_status_code response) 400))) results)
  ∧ (∀ envelope,
       resp_content response ≠ "" → resp_json response = Decoded (VDict envelope) →
       Forall (λ r, r = Ok (get envelope "success" (VBool false))) results)
  ∧ (∀ message,
       resp_content response ≠ "" →
       resp_json response = JsonRequestException message →
       Forall (λ r, r = Raise (LatticeException ("Request failed: " +:+ message)))
         results)
  ∧ (∀ e : pyexn,
       resp_content response ≠ "" → resp_json response = JsonRaised e →
       Forall (λ r, r = Raise e) results).
Proof.
  intros Hnet. cbv zeta.
  unfold CollectionMethods.delete, DocumentMethods.delete,
    CollectionMethods.update_constraints, CollectionMethods.update_indexing.
  split_conj.
  - intros Hbody. repeat constructor; on_response Hnet;
      (destruct Hbody as [->| ->]; [reflexivity|]);
      by destruct (nonempty _).
  - intros envelope Hc%nonempty_ne Hj.
    repeat constructor; on_response Hnet; by rewrite Hc, Hj.
  - intros message Hc%nonempty_ne Hj.
    repeat constructor; on_response Hnet; by rewrite Hc, Hj.
  - intros e Hc%nonempty_ne Hj.
    repeat constructor; on_response Hnet; by rewrite Hc, Hj.
Qed.

Lemma mutations_report_success_witness :
  fst (run (@CollectionMethods.delete sample_lib sample_client "col_1")
         (answers 204 "" None)) = Ok (VBool true)
  ∧ fst (run (@CollectionMethods.delete sample_lib sample_client "col_1")
           (answers 200 "{...}" (Some (VDict {[ "success" := VBool false ]}))))
    = Ok (VBool false).
Proof.
  split.
  - pose proof (proj1 (@mutations_report_success sample_lib sample_client
                         (answers 204 "" None) "col_1" "doc_1" SEM_NONE None
                         IM_ALL None false _ (λ _ _, eq_refl))
                  (or_introl eq_refl)) as Hall.
    by inversion Hall.
  - pose proof (proj1 (proj2 (@mutations_report_success sample_lib sample_client
                         (answers 200 "{...}"
                            (Some (VDict {[ "success" := VBool false ]})))
                         "col_1" "doc_1" SEM_NONE None IM_ALL None false _
                         (λ _ _, eq_refl)))
                  {[ "success" := VBool false ]} ltac:(discriminate) eq_refl)
      as Hall.
    by inversion Hall.
Defined.

Lemma decode_one_fst {A} (from_dict : value → result (option A))
    (response : ResponseContext.t) (net : session) (log : list Request) :
  fst (decode_one from_dict (Some response) net log)
  = if truthy (ResponseContext.success response)
       && truthy (ResponseContext.data response)
    then from_dict (ResponseContext.data response) else Ok None.
Proof.
  unfold decode_one, bind, lift, ret, success_and_data. cbn.
  destruct (_ && _); [|reflexivity]. by destruct (from_dict _).
Qed.

Lemma decode_list_fst {A} (from_dict : value → result (option A))
    (response : ResponseContext.t) (net : session) (log : list Request) :
  fst (decode_list from_dict (Some response) net log)
  = if truthy (ResponseContext.success response)
       && truthy (ResponseContext.data response)
    then from_dict_each from_dict (ResponseContext.data response) else Ok [].
Proof.
  unfold decode_list, bind, lift, ret, success_and_data. cbn.
  destruct (_ && _); [|reflexivity]. by destruct (from_dict_each _ _).
Qed.

(** X15.  Reading a collection or a schema by id gives [None], without
    raising, when the response has no body (whatever its status) and when the
    body is not empty and [response.json()] returns an object whose [success]
    or [data] is falsy -- an empty object as data included; it gives the
    decoded entity when that object has a truthy [success] and a non-empty
    object as [data]; and when [response.json()] raises another exception
    than [json.JSONDecodeError] it raises, a [LatticeException] for an
    exception of [requests], the exception itself otherwise. *)
Theorem read_by_id_absent_or_decoded `{PyLib} (client : LatticeClient)
    (net : session) (cid sid : string) (response : Response) :
  (∀ log r, net log r = Responded response) →
  let c := fst (run (CollectionMethods.read_by_id client cid) net) in
  let s := fst (run (SchemaMethods.read_by_id client sid) net) in
  (resp_content response = "" → c = Ok None ∧ s = Ok None)
  ∧ (∀ envelope,
       resp_content response ≠ "" → resp_json response = Decoded (VDict envelope) →
       (truthy (get envelope "success" (VBool false))
        && truthy (get1 envelope "data") = false →
        c = Ok None ∧ s = Ok None)
       ∧ (∀ payload,
            truthy (get envelope "success" (VBool false)) = true →
            envelope !! "data" = Some (VDict payload) → payload ≠ ∅ →
            c = Ok (Some (Collection.decode payload))
            ∧ s = Ok (Some (Schema.decode payload))))
  ∧ (∀ message,
       resp_content response ≠ "" →
       resp_json response = JsonRequestException message →
       c = Raise (LatticeException ("Request failed: " +:+ message))
       ∧ s = Raise (LatticeException ("Request failed: " +:+ message)))
  ∧ (∀ e : pyexn,
       resp_content response ≠ "" → resp_json response = JsonRaised e →
       c = Raise e ∧ s = Raise e).
Proof.
  intros Hnet. cbv zeta.
  unfold CollectionMethods.read_by_id, SchemaMethods.read_by_id.
  split_conj.
  - intros Hc. split; on_response Hnet; rewrite Hc; cbn [nonempty];
      rewrite decode_one_fst;
      cbn [ResponseContext.success ResponseContext.data ResponseContext.make truthy];
      by rewrite andb_false_r.
  - intros envelope Hc%nonempty_ne Hj. split.
    + intros Hfalsy.
      split; on_response Hnet; rewrite Hc, Hj; cbn [ResponseContext.from_dict
        from_dict_with rbind]; rewrite decode_one_fst; cbn [ResponseContext.success
        ResponseContext.data ResponseContext.decode]; by rewrite Hfalsy.
    + intros payload Hs Hd Hp.
      assert (Hdata : get1 envelope "data" = VDict payload)
        by (unfold get1, get; by rewrite Hd).
      split; on_response Hnet; rewrite Hc, Hj; cbn [ResponseContext.from_dict
        from_dict_with rbind]; rewrite decode_one_fst; cbn [ResponseContext.success
        ResponseContext.data ResponseContext.decode];
        by rewrite Hs, Hdata, (truthy_VDict payload Hp).
  - intros message Hc%nonempty_ne Hj. split; on_response Hnet; by rewrite Hc, Hj.
  - intros e Hc%nonempty_ne Hj. split; on_response Hnet; by rewrite Hc, Hj.
Qed.

Lemma read_by_id_absent_or_decoded_witness :
  fst (run (@CollectionMethods.read_by_id sample_lib sample_client "col_1")
         (answers 404 "" None)) = Ok None
  ∧ fst (run (@CollectionMethods.read_by_id sample_lib sample_client "col_1")
           (answers 200 "{...}" (Some (VDict sample_envelope))))
    = Ok (Some (@Collection.decode sample_lib
                  {[ "id" := VStr "col_1"; "name" := VStr "orders" ]})).
Proof.
  split.
  - exact (proj1 (proj1 (@read_by_id_absent_or_decoded sample_lib sample_client
                           (answers 404 "" None) "col_1" "sch_1" _
                           (λ _ _, eq_refl)) eq_refl)).
  - refine (proj1 (proj2 (proj1 (proj2 (@read_by_id_absent_or_decoded sample_lib
                           sample_client
                           (answers 200 "{...}" (Some (VDict sample_envelope)))
                           "col_1" "sch_1" _ (λ _ _, eq_refl)))
                           sample_envelope _ eq_refl)
                     {[ "id" := VStr "col_1"; "name" := VStr "orders" ]}
                     eq_refl eq_refl _)).
    + discriminate.
    + intros Habs. apply (f_equal size) in Habs. discriminate.
Defined.

(** X16.  A body that is not empty and that [response.json()] rejects with
    a [json.JSONDecodeError] reaches the decoders as a text when the status is
    below 400: if the text is not empty, the reads of one entity then raise an
    [AttributeError], and so do the reads of a list, whose comprehension runs
    over the characters of the text.  At a status of 400 or more the same
    body gives [None] or the empty list. *)
Theorem reads_on_non_json_body `{PyLib} (client : LatticeClient)
    (net : session) (cid sid : string) (response : Response) :
  (∀ log r, net log r = Responded response) →
  resp_content response ≠ "" → resp_text response ≠ "" →
  resp_json response = NotJson →
  let one {A} : result (option A) :=
    if Z.ltb (resp_status_code response) 400 then Raise AttributeError else Ok None in
  let many {A} : result (list (option A)) :=
    if Z.ltb (resp_status_code response) 400 then Raise AttributeError else Ok [] in
  fst (run (CollectionMethods.read_by_id client cid) net) = one
  ∧ fst (run (SchemaMethods.read_by_id client sid) net) = one
  ∧ fst (run (CollectionMethods.read_all client) net) = many
  ∧ fst (run (SchemaMethods.read_all client) net) = many
  ∧ fst (run (IndexMethods.get_mappings client) net) = many.
Proof.
  intros Hnet Hc%nonempty_ne Ht Hj. cbv zeta.
  unfold CollectionMethods.read_by_id, SchemaMethods.read_by_id,
    CollectionMethods.read_all, SchemaMethods.read_all, IndexMethods.get_mappings.
  split_conj; on_response Hnet; rewrite Hc, Hj;
    rewrite ?decode_one_fst, ?decode_list_fst;
    cbn [ResponseContext.success ResponseContext.data ResponseContext.make];
    rewrite (truthy_VStr _ Ht); destruct (Z.ltb _ _); try reflexivity;
    destruct (resp_text response); done.
Qed.

Lemma reads_on_non_json_body_witness :
  fst (run (@CollectionMethods.read_by_id sample_lib sample_client "col_1")
         (answers 200 "<html>" None)) = Raise AttributeError
  ∧ fst (run (@CollectionMethods.read_all sample_lib sample_client)
           (answers 502 "<html>" None)) = Ok [].
Proof.
  split.
  - refine (proj1 (@reads_on_non_json_body sample_lib sample_client
                     (answers 200 "<html>" None) "col_1" "sch_1" _
                     (λ _ _, eq_refl) _ _ eq_refl)); discriminate.
  - refine (proj1 (proj2 (proj2 (@reads_on_non_json_body sample_lib sample_client
                     (answers 502 "<html>" None) "col_1" "sch_1" _
                     (λ _ _, eq_refl) _ _ eq_refl)))); discriminate.
Defined.

Lemma rmap_from_dict_with {A} (f : dict → A) (ds : list dict) :
  rmap (from_dict_with (λ d, Ok (f d))) (VDict <$> ds)
  = Ok ((λ x, Some (f x)) <$> ds).
Proof.
  induction ds as [|x ds IH]; [reflexivity|].
  cbn. cbn in IH. by rewrite IH.
Qed.

Lemma from_dict_each_objects {A} (f : dict → A) (ds : list dict) :
  from_dict_each (from_dict_with (λ d, Ok (f d))) (VList (VDict <$> ds))
  = Ok ((λ x, Some (f x)) <$> ds).
Proof. apply rmap_from_dict_with. Qed.

(** X17.  When the body is not empty and [response.json()] returns an
    object, listing collections gives the empty list, without raising, if the
    [success] or the [data] of that object is falsy, and if its [success] is
    truthy and its [data] is a list of objects it gives their decodings, one
    for one and in the order of the wire. *)
Theorem read_all_in_order `{PyLib} (client : LatticeClient) (net : session)
    (response : Response) (envelope : dict) :
  (∀ log r, net log r = Responded response) →
  resp_content response ≠ "" → resp_json response = Decoded (VDict envelope) →
  (truthy (get envelope "success" (VBool false)) && truthy (get1 envelope "data")
   = false →
   fst (run (CollectionMethods.read_all client) net) = Ok [])
  ∧ (∀ ds, truthy (get envelope "success" (VBool false)) = true →
           envelope !! "data" = Some (VList (VDict <$> ds)) →
           fst (run (CollectionMethods.read_all client) net)
           = Ok ((λ x, Some (Collection.decode x)) <$> ds)).
Proof.
  intros Hnet Hc%nonempty_ne Hj. unfold CollectionMethods.read_all.
  split.
  - intros Hfalsy. on_response Hnet. rewrite Hc, Hj.
    cbn [ResponseContext.from_dict from_dict_with rbind].
    rewrite decode_list_fst.
    cbn [ResponseContext.success ResponseContext.data ResponseContext.decode].
    by rewrite Hfalsy.
  - intros ds Hs Hd.
    assert (Hdata : get1 envelope "data" = VList (VDict <$> ds))
      by (unfold get1, get; by rewrite Hd).
    on_response Hnet. rewrite Hc, Hj.
    cbn [ResponseContext.from_dict from_dict_with rbind].
    rewrite decode_list_fst.
    cbn [ResponseContext.success ResponseContext.data ResponseContext.decode].
    rewrite Hs, Hdata. destruct ds as [|x ds]; [reflexivity|].
    cbn [truthy fmap list_fmap andb].
    apply (from_dict_each_objects Collection.decode (x :: ds)).
Qed.

Lemma read_all_in_order_witness :
  fst (run (@CollectionMethods.read_all sample_lib sample_client)
         (answers 200 "{...}" (Some (VDict sample_list_envelope))))
  = Ok [ Some (@Collection.decode sample_lib {[ "id" := VStr "col_1" ]});
         Some (@Collection.decode sample_lib {[ "id" := VStr "col_2" ]}) ].
Proof.
  refine (proj2 (@read_all_in_order sample_lib sample_client
                   (answers 200 "{...}" (Some (VDict sample_list_envelope)))
                   _ sample_list_envelope (λ _ _, eq_refl) _ eq_refl)
            [ {[ "id" := VStr "col_1" ]}; {[ "id" := VStr "col_2" ]} ]
            eq_refl eq_refl).
  discriminate.
Defined.

(** X18.  The constraints of a collection come from the [fieldConstraints]
    of the payload.  When the body is not empty and [response.json()] returns
    an object with a truthy [success]: if its [data] is a non-empty object,
    the operation gives the empty list when that object has no such field,
    and the decoded constraints, in order, when the field is a list of
    objects; if its [data] is a non-empty list instead of an object, the
    operation raises an [AttributeError]. *)
Theorem get_constraints_payload `{PyLib} (client : LatticeClient)
    (net : session) (cid : string) (response : Response) (envelope : dict) :
  (∀ log r, net log r = Responded response) →
  resp_content response ≠ "" → resp_json response = Decoded (VDict envelope) →
  truthy (get envelope "success" (VBool false)) = true →
  let result := fst (run (CollectionMethods.get_constraints client cid) net) in
  (∀ payload, envelope !! "data" = Some (VDict payload) → payload ≠ ∅ →
     (payload !! "fieldConstraints" = None → result = Ok [])
     ∧ (∀ cs, payload !! "fieldConstraints" = Some (VList (VDict <$> cs)) →
              result = Ok ((λ x, Some (FieldConstraint.decode x)) <$> cs)))
  ∧ (∀ x l, envelope !! "data" = Some (VList (x :: l)) →
            result = Raise AttributeError).
Proof.
  intros Hnet Hc%nonempty_ne Hj Hs. cbv zeta.
  unfold CollectionMethods.get_constraints.
  on_response Hnet. rewrite Hc, Hj.
  cbn [ResponseContext.from_dict from_dict_with rbind].
  unfold bind, lift, ret, success_and_data.
  cbn [attr_success rbind ResponseContext.success ResponseContext.data
       ResponseContext.decode fst snd].
  rewrite Hs. split.
  - intros payload Hd Hp.
    assert (Hdata : get1 envelope "data" = VDict payload)
      by (unfold get1, get; by rewrite Hd).
    rewrite Hdata, (truthy_VDict payload Hp). cbn [andb attr_get].
    split.
    + intros Hnone. unfold get. by rewrite Hnone.
    + intros cs Hcs. unfold get. rewrite Hcs. cbn [default].
      destruct cs as [|x cs]; [reflexivity|].
      cbn [truthy fmap list_fmap].
      pose proof (from_dict_each_objects FieldConstraint.decode (x :: cs)) as Heach.
      cbn [fmap list_fmap] in Heach. unfold FieldConstraint.from_dict.
      unfold id. cbn [truthy]. cbv beta iota. cbn [fst]. exact Heach.
  - intros x l Hd.
    assert (Hdata : get1 envelope "data" = VList (x :: l))
      by (unfold get1, get; by rewrite Hd).
    by rewrite Hdata.
Qed.

Lemma get_constraints_payload_witness :
  fst (run (@CollectionMethods.get_constraints sample_lib sample_client "col_1")
         (answers 200 "{...}" (Some (VDict sample_envelope)))) = Ok []
  ∧ fst (run (@CollectionMethods.get_constraints sample_lib sample_client "col_1")
           (answers 200 "{...}" (Some (VDict sample_list_envelope))))
    = Raise AttributeError.
Proof.
  split.
  - refine (proj1 (proj1 (@get_constraints_payload sample_lib sample_client
                     (answers 200 "{...}" (Some (VDict sample_envelope)))
                     "col_1" _ sample_envelope (λ _ _, eq_refl) _ eq_refl eq_refl)
                     {[ "id" := VStr "col_1"; "name" := VStr "orders" ]}
                     eq_refl _) eq_refl).
    + discriminate.
    + intros Habs. apply (f_equal size) in Habs. discriminate.
  - refine (proj2 (@get_constraints_payload sample_lib sample_client
                     (answers 200 "{...}" (Some (VDict sample_list_envelope)))
                     "col_1" _ sample_list_envelope (λ _ _, eq_refl) _ eq_refl
                     eq_refl) _ _ eq_refl).
    discriminate.
Defined.

(** ** Operations: request bodies *)

(** X19.  The two updates always send the mode, its default included, and
    [update_indexing] always sends [rebuildIndexes], [False] included; the
    constraints and the indexed fields are sent exactly when the list is
    neither [None] nor empty, encoded one for one and in order. *)
Theorem updates_always_carry_mode `{PyLib} (client : LatticeClient)
    (net : session) (cid : string) (mode : SchemaEnforcementMode)
    (constraints : option (list FieldConstraint.t)) (imode : IndexingMode)
    (fields : option (list string)) (rebuild : bool) :
  (∃ body,
      snd (run (CollectionMethods.update_constraints client cid mode constraints) net)
      = [build_request client "PUT"
           ("/v1.0/collections/" +:+ cid +:+ "/constraints") (Some body) None]
      ∧ body !! "schemaEnforcementMode"
        = Some (VStr (SchemaEnforcementMode_value mode))
      ∧ body !! "fieldConstraints"
        = match constraints with
          | Some (c :: cs) =>
              Some (VList ((λ c, VDict (FieldConstraint.to_dict c)) <$> c :: cs))
          | _ => None
          end)
  ∧ (∃ body,
      snd (run (CollectionMethods.update_indexing client cid imode fields rebuild)
             net)
      = [build_request client "PUT"
           ("/v1.0/collections/" +:+ cid +:+ "/indexing") (Some body) None]
      ∧ body !! "indexingMode" = Some (VStr (IndexingMode_value imode))
      ∧ body !! "rebuildIndexes" = Some (VBool rebuild)
      ∧ body !! "indexedFields"
        = match fields with
          | Some (f :: fs) => Some (of_strs (f :: fs))
          | _ => None
          end).
Proof.
  split; eexists; split_conj.
  - unfold CollectionMethods.update_constraints. one_request.
  - unfold CollectionMethods.update_constraints_data. lookup_chain. reflexivity.
  - unfold CollectionMethods.update_constraints_data. lookup_chain.
    by destruct constraints as [[|? ?]|].
  - unfold CollectionMethods.update_indexing. one_request.
  - unfold CollectionMethods.update_indexing_data. lookup_chain. reflexivity.
  - unfold CollectionMethods.update_indexing_data. lookup_chain. reflexivity.
  - unfold CollectionMethods.update_indexing_data. lookup_chain.
    by destruct fields as [[|? ?]|].
Qed.

(** X20.  The body of an ingestion always has [content], with the value
    the caller gave, a [None] included (sent as an explicit null); it has
    [name], [labels] and [tags] exactly when they are neither [None] nor
    empty, and nothing else. *)
Theorem ingest_body `{PyLib} (client : LatticeClient) (net : session)
    (cid : string) (content : value) (name : option string)
    (labels : option (list string)) (tags : option (gmap string string)) :
  ∃ body,
    snd (run (DocumentMethods.ingest client cid content name labels tags) net)
    = [build_request client "PUT" ("/v1.0/collections/" +:+ cid +:+ "/documents")
         (Some body) None]
    ∧ body !! "content" = Some content
    ∧ body !! "name"
      = match name with
        | Some (String a n) => Some (VStr (String a n))
        | _ => None
        end
    ∧ body !! "labels"
      = match labels with
        | Some (l :: ls) => Some (of_strs (l :: ls))
        | _ => None
        end
    ∧ body !! "tags"
      = match tags with
        | Some m => if Nat.eqb (size m) 0 then None else Some (of_str_map m)
        | None => None
        end
    ∧ ∀ k, is_Some (body !! k) → k ∈ ["content"; "name"; "labels"; "tags"].
Proof.
  eexists. split_conj.
  - unfold DocumentMethods.ingest. one_request.
  - unfold DocumentMethods.ingest_data. lookup_chain. reflexivity.
  - unfold DocumentMethods.ingest_data. lookup_chain.
    by destruct name as [[|? ?]|].
  - unfold DocumentMethods.ingest_data. lookup_chain.
    by destruct labels as [[|? ?]|].
  - unfold DocumentMethods.ingest_data. lookup_chain.
    destruct tags as [m|]; cbn; [|done]. by destruct (size m).
  - unfold DocumentMethods.ingest_data.
    repeat lazymatch goal with
           | |- ∀ k', is_Some (set_if _ _ _ _ !! k') → _ =>
               apply wire_names_set_if; [set_solver|]
           end.
    intros k [v Hv]. apply lookup_singleton_Some in Hv as [<- _]. set_solver.
Qed.

(** ** Reading a document: the metadata call and the content call *)

Lemma metadata_params_eq `{PyLib} (il it : bool) :
  DocumentMethods.metadata_params il it
  = {[ "includeContent" := VStr "false";
       "includeLabels" := VStr (if il then "true" else "false");
       "includeTags" := VStr (if it then "true" else "false") ]}.
Proof. unfold DocumentMethods.metadata_params. by rewrite !str_lower_bool_eq. Qed.

Lemma metadata_call_log `{PyLib} (client : LatticeClient) (cid did : string)
    (il it : bool) (net : session) :
  snd ((let! response :=
          _request client "GET"
            ("/v1.0/collections/" +:+ cid +:+ "/documents/" +:+ did) None
            (Some (DocumentMethods.metadata_params il it)) in
        decode_one Document.from_dict response) net [])
  = [build_request client "GET"
       ("/v1.0/collections/" +:+ cid +:+ "/documents/" +:+ did) None
       (Some (DocumentMethods.metadata_params il it))].
Proof. apply request_then_log. intros. apply decode_one_log. Qed.

(** X21.  Reading a document sends the metadata request first, always with
    [includeContent] set to ["false"]; it sends nothing else unless the
    content was asked for and the metadata call gave a document, and then it
    sends one more request, the content request. *)
Theorem read_document_requests `{PyLib} (client : LatticeClient)
    (net : session) (cid did : string) (ic il it : bool) :
  let out := DocumentMethods.read_by_id client cid did ic il it net [] in
  let metadata :=
    build_request client "GET"
      ("/v1.0/collections/" +:+ cid +:+ "/documents/" +:+ did) None
      (Some {[ "includeContent" := VStr "false";
               "includeLabels" := VStr (if il then "true" else "false");
               "includeTags" := VStr (if it then "true" else "false") ]}) in
  let content := DocumentMethods.content_request client cid did in
  (snd out = [metadata] ∨ snd out = [metadata; content])
  ∧ (ic = false → snd out = [metadata])
  ∧ (fst out = Done (Ok None) → snd out = [metadata])
  ∧ (∀ e, fst out = Done (Raise e) → snd out = [metadata]).
Proof.
  cbv zeta. rewrite <- metadata_params_eq.
  pose proof (metadata_call_log client cid did il it net) as Hlog.
  unfold DocumentMethods.read_by_id.
  destruct (bind _ _ net []) as [[[document|]|e] log']; cbn in Hlog; subst log'.
  - destruct ic.
    + destruct (net _ _) as [content_response| | | |]; cbn;
        [unfold DocumentMethods.merge_content;
         destruct (Z.eqb _ _); [destruct (resp_json content_response)|]|..];
        split_conj; try done; by right.
    + cbn. split_conj; try done. by left.
  - cbn. split_conj; try done. by left.
  - cbn. split_conj; try done. by left.
Qed.

Lemma read_document_requests_witness :
  snd (@DocumentMethods.read_by_id sample_lib sample_client "col_1" "doc_1"
         false true true (metadata_then ConnectionError_) [])
  = [build_request sample_client "GET" "/v1.0/collections/col_1/documents/doc_1"
       None (Some {[ "includeContent" := VStr "false";
                     "includeLabels" := VStr "true";
                     "includeTags" := VStr "true" ]})].
Proof.
  exact (proj1 (proj2 (@read_document_requests sample_lib sample_client
                         (metadata_then ConnectionError_) "col_1" "doc_1"
                         false true true)) eq_refl).
Defined.

Lemma _request_responded_at `{PyLib} (client : LatticeClient)
    (path : string) (params : option dict) (net : session)
    (log : list Request) (response : Response) (envelope : dict) :
  net log (build_request client "GET" path None params) = Responded response →
  resp_content response ≠ "" → resp_json response = Decoded (VDict envelope) →
  _request client "GET" path None params net log
  = (Ok (Some (ResponseContext.decode envelope)),
     (log ++ [build_request client "GET" path None params])%list).
Proof.
  intros Hnet Hc%nonempty_ne Hj.
  unfold _request, bind, send, ret, raise, lift. rewrite Hnet.
  case_literals. change (String.eqb "GET" "HEAD") with false. cbv beta iota.
  by rewrite Hc, Hj.
Qed.

Lemma metadata_call_document `{PyLib} (client : LatticeClient)
    (cid did : string) (il it : bool) (net : session) (response : Response)
    (envelope payload : dict) :
  let metadata :=
    build_request client "GET"
      ("/v1.0/collections/" +:+ cid +:+ "/documents/" +:+ did) None
      (Some (DocumentMethods.metadata_params il it)) in
  net [] metadata = Responded response →
  resp_content response ≠ "" → resp_json response = Decoded (VDict envelope) →
  truthy (get envelope "success" (VBool false)) = true →
  envelope !! "data" = Some (VDict payload) → payload ≠ ∅ →
  (let! response :=
     _request client "GET"
       ("/v1.0/collections/" +:+ cid +:+ "/documents/" +:+ did) None
       (Some (DocumentMethods.metadata_params il it)) in
   decode_one Document.from_dict response) net []
  = (Ok (Some (Document.decode payload)), [metadata]).
Proof.
  intros metadata Hnet Hc Hj Hs Hd Hp.
  assert (Hdata : get1 envelope "data" = VDict payload)
    by (unfold get1, get; by rewrite Hd).
  unfold bind at 1.
  rewrite (_request_responded_at client _ _ net [] response envelope Hnet Hc Hj).
  unfold decode_one, bind, lift, ret, success_and_data.
  cbn [attr_success rbind ResponseContext.success ResponseContext.data
       ResponseContext.decode].
  by rewrite Hs, Hdata, (truthy_VDict payload Hp).
Qed.

(** X22.  When the metadata call gives a document and the content call is
    answered, two requests were sent, and what comes back depends on the
    content response: at a status other than 200, the metadata document
    unchanged; at status 200, the metadata document with its content replaced
    by what [content_response.json()] returns, or by the text of the body when
    it raises a [json.JSONDecodeError]; and when it raises another exception,
    of [requests] or not, that exception, which nothing catches. *)
Theorem read_document_merges_content `{PyLib} (client : LatticeClient)
    (net : session) (cid did : string) (il it : bool)
    (response content_response : Response) (envelope payload : dict) :
  let metadata :=
    build_request client "GET"
      ("/v1.0/collections/" +:+ cid +:+ "/documents/" +:+ did) None
      (Some (DocumentMethods.metadata_params il it)) in
  let content := DocumentMethods.content_request client cid did in
  net [] metadata = Responded response →
  resp_content response ≠ "" → resp_json response = Decoded (VDict envelope) →
  truthy (get envelope "success" (VBool false)) = true →
  envelope !! "data" = Some (VDict payload) → payload ≠ ∅ →
  net [metadata] content = Responded content_response →
  DocumentMethods.read_by_id client cid did true il it net []
  = (if Z.eqb (resp_status_code content_response) 200 then
       match resp_json content_response with
       | Decoded v =>
           Done (Ok (Some (Document.set_content (Document.decode payload) v)))
       | NotJson =>
           Done (Ok (Some (Document.set_content (Document.decode payload)
                             (VStr (resp_text content_response)))))
       | JsonRequestException message => Escaped (RequestException_ message)
       | JsonRaised e => Undecoded e
       end
     else Done (Ok (Some (Document.decode payload))),
     [metadata; content]).
Proof.
  intros metadata content Hnet Hc Hj Hs Hd Hp Hcontent.
  unfold DocumentMethods.read_by_id.
  rewrite (metadata_call_document client cid did il it net response envelope
             payload Hnet Hc Hj Hs Hd Hp).
  fold metadata content. by rewrite Hcontent.
Qed.

Lemma read_document_merges_content_witness :
  fst (@DocumentMethods.read_by_id sample_lib sample_client "col_1" "doc_1"
         true true true
         (metadata_then (Responded (envelope_response 200 "{...}"
                                      {[ "price" := VInt 3 ]}))) [])
  = Done (Ok (Some (Document.set_content
                      (@Document.decode sample_lib
                         {[ "id" := VStr "doc_1"; "collectionId" := VStr "col_1" ]})
                      (VDict {[ "price" := VInt 3 ]}))))
  ∧ fst (@DocumentMethods.read_by_id sample_lib sample_client "col_1" "doc_1"
           true true true (metadata_then (Responded (deep_response 200))) [])
    = Undecoded RecursionError.
Proof.
  split.
  - refine (f_equal fst
              (@read_document_merges_content sample_lib sample_client
                 (metadata_then (Responded (envelope_response 200 "{...}"
                                              {[ "price" := VInt 3 ]})))
                 "col_1" "doc_1" true true
                 (envelope_response 200 "{...}" sample_document_envelope)
                 (envelope_response 200 "{...}" {[ "price" := VInt 3 ]})
                 sample_document_envelope
                 {[ "id" := VStr "doc_1"; "collectionId" := VStr "col_1" ]}
                 _ _ _ _ _ _ _)).
    + vm_compute. reflexivity.
    + discriminate.
    + reflexivity.
    + vm_compute. reflexivity.
    + vm_compute. reflexivity.
    + intros Habs. apply (f_equal size) in Habs. vm_compute in Habs. discriminate.
    + vm_compute. reflexivity.
  - refine (f_equal fst
              (@read_document_merges_content sample_lib sample_client
                 (metadata_then (Responded (deep_response 200)))
                 "col_1" "doc_1" true true
                 (envelope_response 200 "{...}" sample_document_envelope)
                 (deep_response 200)
                 sample_document_envelope
                 {[ "id" := VStr "doc_1"; "collectionId" := VStr "col_1" ]}
                 _ _ _ _ _ _ _)).
    + unfold metadata_then.
      match goal with
      | |- context [is_content_call ?r] =>
          replace (is_content_call r) with false by (vm_compute; reflexivity)
      end.
      reflexivity.
    + discriminate.
    + reflexivity.
    + vm_compute. reflexivity.
    + vm_compute. reflexivity.
    + intros Habs. apply (f_equal size) in Habs. vm_compute in Habs. discriminate.
    + unfold metadata_then.
      match goal with
      | |- context [is_content_call ?r] =>
          replace (is_content_call r) with true by (vm_compute; reflexivity)
      end.
      reflexivity.
Defined.

Lemma _request_fault_eq `{PyLib} (client : LatticeClient) (method path : string)
    (data params : option dict) (net : session) (log : list Request) :
  is_fault (net log (build_request client method path data params)) = true →
  _request client method path data params net log
  = (Raise
       match net log (build_request client method path data params) with
       | Timeout_ =>
           LatticeConnectionError
             ("Request to " +:+ (base_url client +:+ path) +:+ " timed out")
       | RequestException_ message =>
           LatticeException ("Request failed: " +:+ message)
       | _ => LatticeConnectionError
                ("Failed to connect to " +:+ (base_url client +:+ path))
       end,
     (log ++ [build_request client method path data params])%list).
Proof.
  unfold _request, bind, send, raise. by destruct (net log _).
Qed.

(** X23.  An exception of [requests] is translated on the metadata call and
    not on the content call.  When the metadata call fails with one, an SDK
    exception is raised -- a [LatticeConnectionError] for a refused connection
    or a timeout, a [LatticeException] for another request error -- after one
    request.  When the metadata call gives a document and the content call
    fails with one, the exception of [requests] reaches the caller as it
    is. *)
Theorem read_document_fault_translation `{PyLib} (client : LatticeClient)
    (net : session) (cid did : string) (il it : bool) :
  let metadata :=
    build_request client "GET"
      ("/v1.0/collections/" +:+ cid +:+ "/documents/" +:+ did) None
      (Some (DocumentMethods.metadata_params il it)) in
  let content := DocumentMethods.content_request client cid did in
  let url :=
    base_url client +:+ "/v1.0/collections/" +:+ cid +:+ "/documents/" +:+ did in
  (∀ ic,
     is_fault (net [] metadata) = true →
     DocumentMethods.read_by_id client cid did ic il it net []
     = (Done (Raise
          match net [] metadata with
          | Timeout_ =>
              LatticeConnectionError ("Request to " +:+ url +:+ " timed out")
          | RequestException_ message =>
              LatticeException ("Request failed: " +:+ message)
          | _ => LatticeConnectionError ("Failed to connect to " +:+ url)
          end),
        [metadata]))
  ∧ (∀ response envelope payload,
       net [] metadata = Responded response →
       resp_content response ≠ "" →
       resp_json response = Decoded (VDict envelope) →
       truthy (get envelope "success" (VBool false)) = true →
       envelope !! "data" = Some (VDict payload) → payload ≠ ∅ →
       is_fault (net [metadata] content) = true →
       DocumentMethods.read_by_id client cid did true il it net []
       = (Escaped (net [metadata] content), [metadata; content])).
Proof.
  cbv zeta. split.
  - intros ic Hfault. unfold DocumentMethods.read_by_id. unfold bind at 1.
    by rewrite (_request_fault_eq client "GET" _ None _ net [] Hfault).
  - intros response envelope payload Hnet Hc Hj Hs Hd Hp Hfault.
    unfold DocumentMethods.read_by_id.
    rewrite (metadata_call_document client cid did il it net response envelope
               payload Hnet Hc Hj Hs Hd Hp).
    by destruct (net [_] _).
Qed.

Lemma read_document_fault_translation_witness :
  fst (@DocumentMethods.read_by_id sample_lib sample_client "col_1" "doc_1"
         true true true (metadata_then Timeout_) [])
  = Escaped Timeout_
  ∧ fst (@DocumentMethods.read_by_id sample_lib sample_client "col_1" "doc_1"
           true true true (λ _ _, RequestException_ "too many redirects") [])
    = Done (Raise (LatticeException "Request failed: too many redirects")).
Proof.
  split.
  - refine (f_equal fst
              (proj2 (@read_document_fault_translation sample_lib sample_client
                        (metadata_then Timeout_) "col_1" "doc_1" true true)
                 (envelope_response 200 "{...}" sample_document_envelope)
                 sample_document_envelope
                 {[ "id" := VStr "doc_1"; "collectionId" := VStr "col_1" ]}
                 _ _ _ _ _ _ _)).
    + vm_compute. reflexivity.
    + discriminate.
    + reflexivity.
    + vm_compute. reflexivity.
    + vm_compute. reflexivity.
    + intros Habs. apply (f_equal size) in Habs. vm_compute in Habs. discriminate.
    + vm_compute. reflexivity.
  - exact (f_equal fst
             (proj1 (@read_document_fault_translation sample_lib sample_client
                       (λ _ _, RequestException_ "too many redirects")
                       "col_1" "doc_1" true true) true eq_refl)).
Defined.

(** ** Health check: what it returns *)

Lemma health_check_fst `{PyLib} (client : LatticeClient) (net : session) :
  fst (run (health_check client) net)
  = match fst (_request client "GET" "/v1.0/health" None None net []) with
    | Ok response =>
        match attr_success response with
        | Ok v => Ok v
        | Raise e => if is_LatticeException e then Ok (VBool false) else Raise e
        end
    | Raise e => if is_LatticeException e then Ok (VBool false) else Raise e
    end.
Proof.
  unfold run, health_check, except_LatticeException, bind, lift.
  destruct (_request _ _ _ _ _ _ _) as [[resp|e] log']; cbn.
  - by destruct (attr_success resp) as [v|e]; [|destruct (is_LatticeException e)].
  - by destruct (is_LatticeException e).
Qed.

(** X26.  What [health_check] gives for each outcome of its one call.  When
    the session raises an exception of [requests] it returns [False]; when
    the session raises any other exception it raises that exception.  On a
    response whose body is empty, or rejected by [response.json()] with a
    [json.JSONDecodeError], it returns whether the status is below 400; when
    [response.json()] returns an object it returns the [success] of that
    object as it is ([False] when there is none), whatever the status; when
    [response.json()] raises another exception, it returns [False] for an
    exception of [requests] and raises the exception otherwise. *)
Theorem health_check_result `{PyLib} (client : LatticeClient) (net : session) :
  ((∀ log r, is_fault (net log r) = true) →
   fst (run (health_check client) net) = Ok (VBool false))
  ∧ (∀ e, (∀ log r, net log r = Raised_ e) →
          fst (run (health_check client) net) = Raise e)
  ∧ (∀ response,
       (∀ log r, net log r = Responded response) →
       (resp_content response = "" ∨ resp_json response = NotJson →
        fst (run (health_check client) net)
        = Ok (VBool (Z.ltb (resp_status_code response) 400)))
       ∧ (∀ envelope,
            resp_content response ≠ "" →
            resp_json response = Decoded (VDict envelope) →
            fst (run (health_check client) net)
            = Ok (get envelope "success" (VBool false)))
       ∧ (∀ message,
            resp_content response ≠ "" →
            resp_json response = JsonRequestException message →
            fst (run (health_check client) net) = Ok (VBool false))
       ∧ (∀ e : pyexn,
            resp_content response ≠ "" → resp_json response = JsonRaised e →
            fst (run (health_check client) net) = Raise e)).
Proof.
  split_conj.
  - intros Hnet. apply health_check_transport_fault, Hnet.
  - intros e Hnet. rewrite health_check_fst.
    unfold _request, bind, send, raise. by rewrite Hnet.
  - intros response Hnet.
    rewrite health_check_fst, (_request_responded _ _ _ _ _ _ _ _ Hnet).
    case_literals. change (String.eqb "GET" "HEAD") with false. cbv beta iota.
    split_conj.
    + intros [-> | Hj]; [reflexivity|]. rewrite Hj. by destruct (nonempty _).
    + intros envelope Hc%nonempty_ne Hj. by rewrite Hc, Hj.
    + intros message Hc%nonempty_ne Hj. by rewrite Hc, Hj.
    + intros e Hc%nonempty_ne Hj. by rewrite Hc, Hj.
Qed.

Lemma health_check_result_witness :
  fst (run (@health_check sample_lib sample_client) refused) = Ok (VBool false)
  ∧ fst (run (@health_check sample_lib sample_client) (λ _ _, Raised_ ValueError))
    = Raise ValueError
  ∧ fst (run (@health_check sample_lib sample_client)
           (answers 500 "{...}" (Some (VDict {[ "success" := VBool true ]}))))
    = Ok (VBool true)
  ∧ fst (run (@health_check sample_lib sample_client) (answers_deep 200))
    = Raise RecursionError.
Proof.
  split_conj.
  - exact (proj1 (@health_check_result sample_lib sample_client refused)
             (λ _ _, eq_refl)).
  - exact (proj1 (proj2 (@health_check_result sample_lib sample_client
                           (λ _ _, Raised_ ValueError)))
             ValueError (λ _ _, eq_refl)).
  - refine (proj1 (proj2 (proj2 (proj2 (@health_check_result sample_lib
                     sample_client
                     (answers 500 "{...}" (Some (VDict {[ "success" := VBool true ]})))))
                     _ (λ _ _, eq_refl))) {[ "success" := VBool true ]} _ eq_refl).
    discriminate.
  - refine (proj2 (proj2 (proj2 (proj2 (proj2 (@health_check_result sample_lib
                     sample_client (answers_deep 200))) _ (λ _ _, eq_refl))))
              RecursionError _ eq_refl).
    intros Habs. apply (f_equal nonempty) in Habs. vm_compute in Habs.
    discriminate.
Defined.
